(** * Output rendering, file retention and download of the AI web scraper

    A shallow embedding of [app/services/output_service.py] (class
    [OutputService]) and of the media-type selection of
    [app/api/endpoints/scrape.py] ([download_file]), with the properties
    of the renderers that the specification states.

    Conventions of the embedding.
    - Python [str] is [string]; a character stands for one code point and
      the text is ASCII (case mapping and [repr] are those of Python on
      ASCII; the bullet of the Word and PDF renderers is a fixed literal).
    - The value returned by [json.loads] is the tagged union [pyobj]; a
      [dict] is an association list in insertion order.  A float is
      carried by its Python [repr].
    - Attribute access on a value of the wrong type raises
      [AttributeError]; the exceptions are the constructor [Raise] of
      [result].
    - The documents built with python-docx, reportlab and openpyxl are the
      data handed to these libraries (nodes, flowables, cells).  What a
      library raises on a text or on a document is no code of the
      service: it is the parameter [library], but for the [ValueError] of
      reportlab's [Table] on a grid without a row or without a column,
      which is written out.
    - The clock ([datetime.now], [time.time]) and [uuid.uuid4] are inputs
      ([env]); times are rational numbers of seconds.
    - The directory [outputs] is a finite map from file names to files;
      each file carries what [stat] and [unlink] do on it, so that the
      failures of the file system are part of the state.  Where a text
      that names no entry of the directory leads ([..], a text with [/])
      is the parameter [elsewhere] of [download_file]. *)

From Stdlib Require Import QArith Ascii.
From stdpp Require Import gmap strings list fin_maps pretty.

Close Scope Q_scope.
Open Scope string_scope.
Open Scope list_scope.

#[local] Set Warnings "-register-all".

(** ** Python strings *)

Module PyStr.

Definition dquote : ascii := "034"%char.
Definition squote : ascii := "'"%char.
Definition backslash : ascii := "\"%char.

Definition is_upper (c : ascii) : bool :=
  let n := nat_of_ascii c in (65 <=? n)%nat && (n <=? 90)%nat.

Definition is_lower (c : ascii) : bool :=
  let n := nat_of_ascii c in (97 <=? n)%nat && (n <=? 122)%nat.

(** [Py_UNICODE_ISCASED] on ASCII. *)
Definition is_cased (c : ascii) : bool := is_upper c || is_lower c.

Definition upper_char (c : ascii) : ascii :=
  if is_lower c then ascii_of_nat (nat_of_ascii c - 32) else c.

Definition lower_char (c : ascii) : ascii :=
  if is_upper c then ascii_of_nat (nat_of_ascii c + 32) else c.

(** [s.upper()] *)
Fixpoint upper (s : string) : string :=
  match s with
  | EmptyString => EmptyString
  | String c r => String (upper_char c) (upper r)
  end.

(** [s.lower()] *)
Fixpoint lower (s : string) : string :=
  match s with
  | EmptyString => EmptyString
  | String c r => String (lower_char c) (lower r)
  end.

(** [s.title()]: a character that follows a cased character is
    lowercased, any other one is uppercased. *)
Fixpoint title_from (previous_is_cased : bool) (s : string) : string :=
  match s with
  | EmptyString => EmptyString
  | String c r =>
      String (if previous_is_cased then lower_char c else upper_char c)
             (title_from (is_cased c) r)
  end.

Definition title (s : string) : string := title_from false s.

(** [s * n] *)
Fixpoint repeat (s : string) (n : nat) : string :=
  match n with
  | O => EmptyString
  | S m => s +:+ repeat s m
  end.

(** [len(s)] *)
Definition len (s : string) : nat := String.length s.

(** [sep.join(parts)] *)
Definition join (sep : string) (parts : list string) : string :=
  String.concat sep parts.

(** [c in s] *)
Fixpoint contains (c : ascii) (s : string) : bool :=
  match s with
  | EmptyString => false
  | String d r => Ascii.eqb c d || contains c r
  end.

(** [s.rfind('.')], as [None] for -1. *)
Fixpoint rfind_dot (s : string) : option nat :=
  match s with
  | EmptyString => None
  | String c r =>
      match rfind_dot r with
      | Some i => Some (S i)
      | None => if Ascii.eqb c "."%char then Some 0%nat else None
      end
  end.

(** [s[i:]] *)
Fixpoint drop (i : nat) (s : string) : string :=
  match i, s with
  | O, _ => s
  | S j, EmptyString => EmptyString
  | S j, String _ r => drop j r
  end.

Definition hex_digit (n : nat) : ascii :=
  if (n <? 10)%nat then ascii_of_nat (48 + n) else ascii_of_nat (87 + n).

(** One character of [repr(s)] when the delimiter is [q]. *)
Definition repr_char (q c : ascii) : string :=
  let n := nat_of_ascii c in
  if Ascii.eqb c q || Ascii.eqb c backslash then String backslash (String c "")
  else if (n =? 9)%nat then "\t"
  else if (n =? 10)%nat then "\n"
  else if (n =? 13)%nat then "\r"
  else if (n <? 32)%nat || (n =? 127)%nat
       then String backslash (String "x" (String (hex_digit (n / 16)) (String (hex_digit (n mod 16)) "")))
  else String c "".

Fixpoint repr_body (q : ascii) (s : string) : string :=
  match s with
  | EmptyString => EmptyString
  | String c r => repr_char q c +:+ repr_body q r
  end.

(** [repr(s)]: single quotes, unless the text has a single quote and no
    double quote. *)
Definition repr (s : string) : string :=
  let q := if contains squote s && negb (contains dquote s) then dquote else squote in
  String q (repr_body q s +:+ String q "").

End PyStr.

(** ** The extracted data *)

Inductive pyobj : Type :=
| VNone
| VBool (b : bool)
| VInt (n : Z)
| VFloat (text : string)
| VStr (s : string)
| VList (items : list pyobj)
| VDict (entries : list (string * pyobj)).

Abbreviation dict := (list (string * pyobj)).

Definition isinstance_dict (v : pyobj) : bool :=
  match v with VDict _ => true | _ => false end.

Definition isinstance_list (v : pyobj) : bool :=
  match v with VList _ => true | _ => false end.

(** [repr(v)] *)
Fixpoint py_repr (v : pyobj) : string :=
  match v with
  | VNone => "None"
  | VBool true => "True"
  | VBool false => "False"
  | VInt n => pretty n
  | VFloat text => text
  | VStr s => PyStr.repr s
  | VList items => "[" +:+ PyStr.join ", " (map py_repr items) +:+ "]"
  | VDict entries =>
      "{" +:+ PyStr.join ", "
               (map (fun '(k, x) => PyStr.repr k +:+ ": " +:+ py_repr x) entries)
          +:+ "}"
  end.

(** [str(v)], also what an f-string writes for [{v}]. *)
Definition py_str (v : pyobj) : string :=
  match v with
  | VStr s => s
  | _ => py_repr v
  end.

(** ** Exceptions *)

Inductive exn : Type :=
| ValueError (msg : string)
| AttributeError (msg : string)
| OSError (msg : string)
| HTTPException (status_code : nat) (detail : string).

Inductive result (A : Type) : Type :=
| Ok (a : A)
| Raise (e : exn).

Arguments Ok {A} a.
Arguments Raise {A} e.

Definition bind {A B : Type} (r : result A) (k : A -> result B) : result B :=
  match r with
  | Ok a => k a
  | Raise e => Raise e
  end.

#[global] Instance result_bind : MBind result := fun A B k r => bind r k.
#[global] Instance result_ret : MRet result := fun A a => Ok a.

(** A comprehension [[f(x) for x in l]] whose body may raise. *)
Fixpoint for_each {A B : Type} (f : A -> result B) (l : list A) : result (list B) :=
  match l with
  | [] => Ok []
  | x :: r => y ← f x; ys ← for_each f r; Ok (y :: ys)
  end.

(** [str(e)] *)
Definition exn_str (e : exn) : string :=
  match e with
  | ValueError msg | AttributeError msg | OSError msg => msg
  | HTTPException status_code detail => pretty status_code +:+ ": " +:+ detail
  end.

(** [v.keys()], [v.items()] and [v.get(k, default)] *)
Definition py_items (v : pyobj) : result dict :=
  match v with
  | VDict entries => Ok entries
  | _ => Raise (AttributeError "object has no attribute 'items'")
  end.

Definition py_keys (v : pyobj) : result (list string) :=
  match v with
  | VDict entries => Ok (map fst entries)
  | _ => Raise (AttributeError "object has no attribute 'keys'")
  end.

Fixpoint dict_get (entries : dict) (k : string) (default : pyobj) : pyobj :=
  match entries with
  | [] => default
  | (k', x) :: r => if String.eqb k' k then x else dict_get r k default
  end.

Definition py_get (v : pyobj) (k : string) (default : pyobj) : result pyobj :=
  match v with
  | VDict entries => Ok (dict_get entries k default)
  | _ => Raise (AttributeError "object has no attribute 'get'")
  end.

(** ** Documents *)

(** python-docx: the body of a [Document] is the list of the blocks added
    to it. *)
Inductive docx_block : Type :=
| Heading (text : string) (level : nat) (alignment : option nat)
| DocParagraph (text : string) (style : option string).

(** reportlab: the flowables of a story; the [TableStyle] of the only
    table is fixed. *)
Inductive flowable : Type :=
| Paragraph (text : string) (style : string)
| Spacer (width height : nat)
| Table (data : list (list string)).

(** openpyxl: a cell has a value ([None] when never assigned), a font and
    a fill. *)
Record Font : Type := mkFont {
  font_bold : bool;
  font_color : option string;
  font_size : option nat
}.

Record cell : Type := mkCell {
  cell_value : option string;
  cell_font : option Font;
  cell_fill : option string
}.

Definition blank_cell : cell := mkCell None None None.

(** A worksheet: its cells by (row, column), both counted from 1, and the
    widths of [column_dimensions], by column index. *)
Record worksheet : Type := mkSheet {
  sheet_title : string;
  cells : gmap (nat * nat) cell;
  column_width : gmap nat nat
}.

Inductive document : Type :=
| TextFile (content : string)
| WordFile (body : list docx_block)
| PdfFile (story : list flowable)
| ExcelFile (ws : worksheet).

(** The libraries, by the exception each raises, if any:
    [Paragraph(text, style)] of reportlab, which parses the markup of the
    text; [doc.build(story)] of reportlab; python-docx when the blocks
    are added in this order and the document is saved; openpyxl when the
    values of the sheet are assigned and the workbook is saved. *)
Record library : Type := mkLibrary {
  paragraph_error : string -> option exn;
  build_error : list flowable -> option exn;
  docx_error : list docx_block -> option exn;
  openpyxl_error : worksheet -> option exn
}.

(** A call that returns nothing, or raises. *)
Definition check (error : option exn) : result unit :=
  match error with
  | Some ex => Raise ex
  | None => Ok tt
  end.

(** ** The output directory, the log and the clock *)

(** A file of the directory [outputs]: [Path.is_file()], what
    [Path.stat().st_mtime] returns or raises, the error [Path.unlink()]
    raises if it does, and the document saved there if any. *)
Record file : Type := mkFile {
  f_is_file : bool;
  f_mtime : result Q;
  f_unlink_error : option exn;
  f_content : option document
}.

Inductive log_record : Type :=
| LogInfo (msg : string)
| LogWarning (msg : string)
| LogError (msg : string).

(** The directory is a map from file names to files. *)
Record state : Type := mkState {
  output_dir : gmap string file;
  log : list log_record
}.

(** What the calls to the clock and to [uuid4] return during one request:
    [datetime.now()] formatted for the file name and for the
    [Generated:] line, the first 8 characters of the UUID, and
    [time.time()]. *)
Record env : Type := mkEnv {
  now_compact : string;
  now_readable : string;
  uuid8 : string;
  time_time : Q
}.

(** A method of the service: it may raise, and it leaves a state behind
    in both cases. *)
Definition M (A : Type) : Type := state -> result A * state.

Definition ret {A : Type} (a : A) : M A := fun st => (Ok a, st).

Definition raise {A : Type} (e : exn) : M A := fun st => (Raise e, st).

Definition lift {A : Type} (r : result A) : M A := fun st => (r, st).

Definition bindM {A B : Type} (m : M A) (k : A -> M B) : M B :=
  fun st =>
    match m st with
    | (Ok a, st') => k a st'
    | (Raise e, st') => (Raise e, st')
    end.

#[global] Instance M_bind : MBind M := fun A B k m => bindM m k.
#[global] Instance M_ret : MRet M := fun A a => ret a.

(** [try: body except Exception as e: handler(e)] *)
Definition try_except {A : Type} (body : M A) (handler : exn -> M A) : M A :=
  fun st =>
    match body st with
    | (Ok a, st') => (Ok a, st')
    | (Raise e, st') => handler e st'
    end.

Definition logger_info (msg : string) : M unit :=
  fun st => (Ok tt, mkState (output_dir st) (log st ++ [LogInfo msg])).

Definition logger_error (msg : string) : M unit :=
  fun st => (Ok tt, mkState (output_dir st) (log st ++ [LogError msg])).

(** Saving a document under [filename] creates the file or replaces it. *)
Definition save (e : env) (filename : string) (doc : document) : M unit :=
  fun st =>
    (Ok tt,
     mkState (<[filename := mkFile true (Ok (time_time e)) None (Some doc)]> (output_dir st))
             (log st)).

(** [str(self.output_dir / filename)] *)
Definition filepath_of (filename : string) : string := "outputs/" +:+ filename.

(** ** The service *)

Definition bullet : string := "•".

(** *** Word *)

(** [_add_dict_to_word(doc, data, level)]: the blocks it adds to [doc].
    The recursion is on the value; the method is only called on a
    [dict]. *)
Fixpoint word_blocks (data : pyobj) (level : nat) : list docx_block :=
  match data with
  | VDict entries =>
      (fix each (l : dict) : list docx_block :=
         match l with
         | [] => []
         | (key, value) :: rest =>
             match value with
             | VDict _ =>
                 (if (level =? 0)%nat
                  then [Heading (PyStr.title key) 2 None]
                  else [DocParagraph (PyStr.repeat "  " level +:+ bullet +:+ " " +:+ key +:+ ":")
                                     (Some "List Bullet")])
                 ++ word_blocks value (level + 1)
             | VList items =>
                 DocParagraph (PyStr.repeat "  " level +:+ bullet +:+ " " +:+ key +:+ ":")
                              (Some "List Bullet")
                 :: (fix elems (xs : list pyobj) : list docx_block :=
                       match xs with
                       | [] => []
                       | item :: r =>
                           match item with
                           | VDict _ => word_blocks item (level + 1)
                           | _ => [DocParagraph (PyStr.repeat "  " (level + 1) +:+ "- " +:+ py_str item) None]
                           end ++ elems r
                       end) items
             | _ =>
                 [DocParagraph (PyStr.repeat "  " level +:+ bullet +:+ " " +:+ key +:+ ": " +:+ py_str value)
                               None]
             end ++ each rest
         end) entries
  | _ => []
  end.

Definition _add_dict_to_word (doc : list docx_block) (data : dict) (level : nat)
  : list docx_block :=
  doc ++ word_blocks (VDict data) level.

(** The blocks [_generate_word] adds to the document. *)
Definition word_body (e : env) (data : pyobj) (prompt : string) : list docx_block :=
  let doc := [Heading "Web Scraping Results" 0 (Some 1%nat);
              Heading "Scraping Details" 1 None;
              DocParagraph ("Generated: " +:+ now_readable e) None;
              DocParagraph ("Prompt: " +:+ prompt) None;
              Heading "Extracted Data" 1 None] in
  match data with
  | VDict entries => _add_dict_to_word doc entries 0
  | _ => doc ++ [DocParagraph (py_str data) None]
  end.

Definition _generate_word (lib : library) (e : env) (data : pyobj)
    (prompt timestamp unique_id : string) : M (string * string) :=
  let filename := "scrape_result_" +:+ timestamp +:+ "_" +:+ unique_id +:+ ".docx" in
  let doc := word_body e data prompt in
  _ ← lift (check (docx_error lib doc));
  _ ← save e filename (WordFile doc);
  _ ← logger_info ("Generated Word document: " +:+ filename);
  ret (filename, filepath_of filename).

(** *** PDF *)

(** The test of both [_is_tabular_data] and [_dict_to_table_data]: a
    non-empty list ... *)
Definition nonempty_list (v : pyobj) : option (list pyobj) :=
  match v with
  | VList [] => None
  | VList items => Some items
  | _ => None
  end.

(** ... all of whose items are dicts. *)
Definition all_dicts (items : list pyobj) : bool := forallb isinstance_dict items.

Fixpoint any_table (entries : dict) : bool :=
  match entries with
  | [] => false
  | (_, value) :: rest =>
      match nonempty_list value with
      | Some items => if all_dicts items then true else any_table rest
      | None => any_table rest
      end
  end.

(** A table candidate: a non-empty list of dicts. *)
Definition table_candidate (v : pyobj) : bool :=
  match nonempty_list v with
  | Some items => all_dicts items
  | None => false
  end.

Definition _is_tabular_data (data : pyobj) : bool :=
  match data with
  | VDict entries => any_table entries
  | _ => false
  end.

(** [[str(item.get(header, '')) for header in headers]] *)
Definition table_row (item : pyobj) (headers : list string) : result (list string) :=
  for_each (fun header => x ← py_get item header (VStr ""); Ok (py_str x)) headers.

(** The loop of [_dict_to_table_data]; [break] leaves it with the table
    of the first list of dicts. *)
Fixpoint first_table (entries : dict) : result (list (list string)) :=
  match entries with
  | [] => Ok []
  | (key, value) :: rest =>
      match nonempty_list value with
      | Some items =>
          if all_dicts items then
            match items with
            | [] => Ok []
            | first :: _ =>
                headers ← py_keys first;
                rows ← for_each (fun item => table_row item headers) items;
                Ok (headers :: rows)
            end
          else first_table rest
      | None => first_table rest
      end
  end.

Definition _dict_to_table_data (data : pyobj) : result (list (list string)) :=
  entries ← py_items data;
  first_table entries.

Definition nbsp : string := "&nbsp;".

Fixpoint _format_data_for_pdf (data : pyobj) (indent : nat) : string :=
  match data with
  | VDict entries =>
      PyStr.join ""
        (map (fun '(key, value) =>
                match value with
                | VDict _ | VList _ =>
                    PyStr.repeat nbsp (indent * 4) +:+ "<b>" +:+ key +:+ ":</b><br/>"
                    +:+ _format_data_for_pdf value (indent + 1)
                | _ =>
                    PyStr.repeat nbsp (indent * 4) +:+ "<b>" +:+ key +:+ ":</b> "
                    +:+ py_str value +:+ "<br/>"
                end) entries)
  | VList items =>
      PyStr.join ""
        (map (fun item =>
                PyStr.repeat nbsp (indent * 4) +:+ bullet +:+ " "
                +:+ _format_data_for_pdf item (indent + 1) +:+ "<br/>") items)
  | _ => py_str data
  end.

(** [Paragraph(text, style)]: the library parses the markup of the text
    and raises on a text it cannot read. *)
Definition paragraph (lib : library) (text style : string) : result flowable :=
  _ ← check (paragraph_error lib text);
  Ok (Paragraph text style).

(** [Table(data)]: the number of columns is the length of the longest
    row, and the library raises a [ValueError] for a grid without a row
    or without a column (its text starts with the identity of the table,
    which is left out).  The rows of the grids of [_dict_to_table_data]
    all have the length of the header. *)
Definition table (data : list (list string)) : result flowable :=
  let nrows := length data in
  let ncols := max_list (map (fun row => length row) data) in
  if (nrows =? 0)%nat || (ncols =? 0)%nat
  then Raise (ValueError "must have at least a row and column")
  else Ok (Table data).

(** The story [_generate_pdf] builds, flowable by flowable. *)
Definition pdf_story (lib : library) (e : env) (data : pyobj) (prompt : string)
  : result (list flowable) :=
  title ← paragraph lib "Web Scraping Results" "CustomTitle";
  details ← paragraph lib "Scraping Details" "Heading2";
  generated ← paragraph lib ("<b>Generated:</b> " +:+ now_readable e) "Normal";
  prompt_line ← paragraph lib ("<b>Prompt:</b> " +:+ prompt) "Normal";
  extracted ← paragraph lib "Extracted Data" "Heading2";
  let story := [title; Spacer 1 20; details; generated; prompt_line; Spacer 1 20; extracted] in
  if isinstance_dict data && _is_tabular_data data then
    table_data ← _dict_to_table_data data;
    match table_data with
    | [] => Ok story
    | _ :: _ =>
        t ← table table_data;
        Ok (story ++ [t])
    end
  else
    formatted_text ← paragraph lib (_format_data_for_pdf data 0) "Normal";
    Ok (story ++ [formatted_text]).

Definition _generate_pdf (lib : library) (e : env) (data : pyobj)
    (prompt timestamp unique_id : string) : M (string * string) :=
  let filename := "scrape_result_" +:+ timestamp +:+ "_" +:+ unique_id +:+ ".pdf" in
  story ← lift (pdf_story lib e data prompt);
  _ ← lift (check (build_error lib story));
  _ ← save e filename (PdfFile story);
  _ ← logger_info ("Generated PDF document: " +:+ filename);
  ret (filename, filepath_of filename).

(** *** Excel *)

(** [ws.cell(row, column)], which creates the cell when it is absent. *)
Definition get_cell (ws : worksheet) (row col : nat) : cell :=
  default blank_cell (cells ws !! (row, col)).

Definition put_cell (ws : worksheet) (row col : nat) (c : cell) : worksheet :=
  mkSheet (sheet_title ws) (<[(row, col) := c]> (cells ws)) (column_width ws).

(** [ws.cell(row, col).value = v], [.font = f], [.fill = f] *)
Definition set_value (ws : worksheet) (row col : nat) (v : string) : worksheet :=
  let c := get_cell ws row col in
  put_cell ws row col (mkCell (Some v) (cell_font c) (cell_fill c)).

Definition set_font (ws : worksheet) (row col : nat) (f : Font) : worksheet :=
  let c := get_cell ws row col in
  put_cell ws row col (mkCell (cell_value c) (Some f) (cell_fill c)).

Definition set_fill (ws : worksheet) (row col : nat) (f : string) : worksheet :=
  let c := get_cell ws row col in
  put_cell ws row col (mkCell (cell_value c) (cell_font c) (Some f)).

Definition header_font : Font := mkFont true (Some "FFFFFF") None.
Definition header_fill : string := "366092".

(** The three statements that write a section header in column A. *)
Definition section_header (ws : worksheet) (row : nat) (text : string) : worksheet :=
  set_fill (set_font (set_value ws row 1 text) row 1 header_font) row 1 header_fill.

(** [for col, header in enumerate(headers, 1): ...] of the header row,
    from column [col] on. *)
Fixpoint header_cells (ws : worksheet) (row col : nat) (headers : list string) : worksheet :=
  match headers with
  | [] => ws
  | header :: rest =>
      let ws := set_value ws row col header in
      let ws := set_font ws row col (mkFont true None None) in
      let ws := set_fill ws row col "D9D9D9" in
      header_cells ws row (S col) rest
  end.

(** [for col, header in enumerate(headers, 1): ws.cell(row, col,
    str(item.get(header, '')))], from column [col] on. *)
Fixpoint row_cells (ws : worksheet) (row col : nat) (item : pyobj) (headers : list string)
  : result worksheet :=
  match headers with
  | [] => Ok ws
  | header :: rest =>
      x ← py_get item header (VStr "");
      row_cells (set_value ws row col (py_str x)) row (S col) item rest
  end.

(** [for item in value: ...; current_row += 1] of a table. *)
Fixpoint data_rows (ws : worksheet) (current_row : nat) (items : list pyobj)
    (headers : list string) : result (worksheet * nat) :=
  match items with
  | [] => Ok (ws, current_row)
  | item :: rest =>
      ws ← row_cells ws current_row 1 item headers;
      data_rows ws (S current_row) rest headers
  end.

(** [for item in value: ws[f'A{current_row}'] = str(item); current_row += 1]
    of a simple list. *)
Fixpoint list_rows (ws : worksheet) (current_row : nat) (items : list pyobj)
  : worksheet * nat :=
  match items with
  | [] => (ws, current_row)
  | item :: rest => list_rows (set_value ws current_row 1 (py_str item)) (S current_row) rest
  end.

(** The body of the loop of [_add_dict_to_excel] for one key. *)
Definition excel_entry (ws : worksheet) (current_row : nat) (key : string) (value : pyobj)
  : result (worksheet * nat) :=
  match nonempty_list value with
  | Some items =>
      if all_dicts items then
        let ws := section_header ws current_row (PyStr.title key) in
        let current_row := S current_row in
        match items with
        | [] => Ok (ws, current_row)
        | first :: _ =>
            headers ← py_keys first;
            let ws := header_cells ws current_row 1 headers in
            let current_row := S current_row in
            '(ws, current_row) ← data_rows ws current_row items headers;
            Ok (ws, S current_row)
        end
      else
        let ws := section_header ws current_row (PyStr.title key) in
        let current_row := S current_row in
        let '(ws, current_row) := list_rows ws current_row items in
        Ok (ws, S current_row)
  | None =>
      let ws := set_value ws current_row 1 (PyStr.title key) in
      let ws := set_value ws current_row 2 (py_str value) in
      Ok (ws, S current_row)
  end.

Fixpoint excel_entries (ws : worksheet) (current_row : nat) (entries : dict)
  : result (worksheet * nat) :=
  match entries with
  | [] => Ok (ws, current_row)
  | (key, value) :: rest =>
      '(ws, current_row) ← excel_entry ws current_row key value;
      excel_entries ws current_row rest
  end.

Definition _add_dict_to_excel (ws : worksheet) (data : pyobj) (start_row : nat)
  : result (worksheet * nat) :=
  entries ← py_items data;
  excel_entries ws start_row entries.

(** [ws.max_row] and [ws.max_column] of openpyxl: 1 for a sheet without
    cells, else the largest row and column that has a cell. *)
Definition max_row (ws : worksheet) : nat :=
  if decide (cells ws = ∅) then 1%nat
  else max_list (map (fun kc => fst (fst kc)) (map_to_list (cells ws))).

Definition max_column (ws : worksheet) : nat :=
  if decide (cells ws = ∅) then 1%nat
  else max_list (map (fun kc => snd (fst kc)) (map_to_list (cells ws))).

(** [ws.cell(row, col).value], and [str] of it; the value of a cell never
    assigned is [None]. *)
Definition value_at (ws : worksheet) (row col : nat) : option string :=
  cell_value (get_cell ws row col).

Definition cell_text (ws : worksheet) (row col : nat) : string :=
  match value_at ws row col with
  | Some s => s
  | None => "None"
  end.

(** The inner loop of the width adjustment over the cells of a column,
    which [ws.columns] yields for the rows 1 to [max_row]. *)
Fixpoint longest (ws : worksheet) (col : nat) (rows : list nat) (max_length : nat) : nat :=
  match rows with
  | [] => max_length
  | row :: rest =>
      let n := PyStr.len (cell_text ws row col) in
      longest ws col rest (if (max_length <? n)%nat then n else max_length)
  end.

Definition set_width (ws : worksheet) (col width : nat) : worksheet :=
  mkSheet (sheet_title ws) (cells ws) (<[col := width]> (column_width ws)).

(** [for column in ws.columns: ...] over the columns 1 to [max_column];
    the bounds are those of the sheet [ws0] at the start of the loop. *)
Fixpoint adjust_columns (ws0 ws : worksheet) (cols : list nat) : worksheet :=
  match cols with
  | [] => ws
  | col :: rest =>
      let max_length := longest ws0 col (seq 1 (max_row ws0)) 0 in
      let adjusted_width := Nat.min (max_length + 2) 50 in
      adjust_columns ws0 (set_width ws col adjusted_width) rest
  end.

Definition auto_adjust (ws : worksheet) : worksheet :=
  adjust_columns ws ws (seq 1 (max_column ws)).

Definition excel_preamble (e : env) (prompt : string) : worksheet :=
  let ws := mkSheet "Scraping Results" ∅ ∅ in
  let ws := set_value ws 1 1 "Web Scraping Results" in
  let ws := set_font ws 1 1 (mkFont true None (Some 16%nat)) in
  let ws := set_value ws 3 1 "Generated:" in
  let ws := set_value ws 3 2 (now_readable e) in
  let ws := set_value ws 4 1 "Prompt:" in
  set_value ws 4 2 prompt.

(** The sheet [_generate_excel] fills, before the widths are set. *)
Definition excel_cells (e : env) (data : pyobj) (prompt : string) : result worksheet :=
  let ws := excel_preamble e prompt in
  let current_row := 6%nat in
  if isinstance_dict data then
    '(ws, _) ← _add_dict_to_excel ws data current_row;
    Ok ws
  else
    let ws := section_header ws current_row "Extracted Data" in
    let current_row := S current_row in
    Ok (set_value ws current_row 1 (py_str data)).

Definition excel_sheet (e : env) (data : pyobj) (prompt : string) : result worksheet :=
  ws ← excel_cells e data prompt;
  Ok (auto_adjust ws).

Definition _generate_excel (lib : library) (e : env) (data : pyobj)
    (prompt timestamp unique_id : string) : M (string * string) :=
  let filename := "scrape_result_" +:+ timestamp +:+ "_" +:+ unique_id +:+ ".xlsx" in
  ws ← lift (excel_sheet e data prompt);
  _ ← lift (check (openpyxl_error lib ws));
  _ ← save e filename (ExcelFile ws);
  _ ← logger_info ("Generated Excel file: " +:+ filename);
  ret (filename, filepath_of filename).

(** *** Text *)

(** [_format_dict_for_text(data, indent)]: the lines it returns.  The
    recursion is on the value; the method is only called on a [dict]. *)
Fixpoint text_lines (data : pyobj) (indent : nat) : list string :=
  match data with
  | VDict entries =>
      let indent_str := PyStr.repeat "  " indent in
      (fix each (l : dict) : list string :=
         match l with
         | [] => []
         | (key, value) :: rest =>
             match value with
             | VDict _ =>
                 (indent_str +:+ PyStr.upper key +:+ ":")
                 :: text_lines value (indent + 1) ++ [""]
             | VList items =>
                 (indent_str +:+ PyStr.upper key +:+ ":")
                 :: (fix elems (xs : list pyobj) (i : nat) : list string :=
                       match xs with
                       | [] => []
                       | item :: r =>
                           match item with
                           | VDict _ =>
                               (indent_str +:+ "  " +:+ pretty i +:+ ".")
                               :: text_lines item (indent + 2)
                           | _ => [indent_str +:+ "  " +:+ pretty i +:+ ". " +:+ py_str item]
                           end ++ elems r (S i)
                       end) items 1%nat
                 ++ [""]
             | _ => [indent_str +:+ key +:+ ": " +:+ py_str value]
             end ++ each rest
         end) entries
  | _ => []
  end.

Definition _format_dict_for_text (data : dict) (indent : nat) : list string :=
  text_lines (VDict data) indent.

(** The lines [_generate_text] joins with newlines. *)
Definition text_content (e : env) (data : pyobj) (prompt : string) : list string :=
  let content :=
    [PyStr.repeat "=" 50;
     "WEB SCRAPING RESULTS";
     PyStr.repeat "=" 50;
     "";
     "Generated: " +:+ now_readable e;
     "Prompt: " +:+ prompt;
     "";
     "EXTRACTED DATA:";
     PyStr.repeat "-" 20;
     ""] in
  match data with
  | VDict entries => content ++ _format_dict_for_text entries 0
  | _ => content ++ [py_str data]
  end.

Definition newline : string := String "010" "".

Definition _generate_text (e : env) (data : pyobj) (prompt timestamp unique_id : string)
  : M (string * string) :=
  let filename := "scrape_result_" +:+ timestamp +:+ "_" +:+ unique_id +:+ ".txt" in
  _ ← save e filename (TextFile (PyStr.join newline (text_content e data prompt)));
  _ ← logger_info ("Generated text file: " +:+ filename);
  ret (filename, filepath_of filename).

(** *** The dispatcher *)

Definition generate_output (lib : library) (e : env) (data : pyobj)
    (format_type prompt : string) : M (string * string) :=
  let timestamp := now_compact e in
  let unique_id := uuid8 e in
  try_except
    (if String.eqb format_type "word" then _generate_word lib e data prompt timestamp unique_id
     else if String.eqb format_type "pdf" then _generate_pdf lib e data prompt timestamp unique_id
     else if String.eqb format_type "excel"
     then _generate_excel lib e data prompt timestamp unique_id
     else if String.eqb format_type "text" then _generate_text e data prompt timestamp unique_id
     else raise (ValueError ("Unsupported format: " +:+ format_type)))
    (fun ex =>
       _ ← logger_error ("Error generating " +:+ format_type +:+ " output: " +:+ exn_str ex);
       raise ex).

(** *** The sweep *)

(** [file_age > days * 24 * 3600] *)
Definition expired (days : Z) (file_age : Q) : bool :=
  if Qlt_le_dec (inject_Z (days * 24 * 3600)) file_age then true else false.

Definition unlink (name : string) (f : file) : M unit :=
  fun st =>
    match f_unlink_error f with
    | Some ex => (Raise ex, st)
    | None => (Ok tt, mkState (delete name (output_dir st)) (log st))
    end.

(** The loop over the entries that [glob("*")] has listed. *)
Fixpoint sweep (current_time : Q) (days : Z) (listing : list (string * file)) : M unit :=
  match listing with
  | [] => ret tt
  | (name, file_path) :: rest =>
      _ ← (if f_is_file file_path then
             st_mtime ← lift (f_mtime file_path);
             let file_age := (current_time - st_mtime)%Q in
             if expired days file_age then
               _ ← unlink name file_path;
               logger_info ("Cleaned up old file: " +:+ name)
             else ret tt
           else ret tt);
      sweep current_time days rest
  end.

Definition cleanup_old_files (e : env) (days : Z) : M unit :=
  try_except
    (fun st => sweep (time_time e) days (map_to_list (output_dir st)) st)
    (fun ex => logger_error ("Error cleaning up files: " +:+ exn_str ex)).

(** The call of the endpoint, with the default [days=7]. *)
Definition cleanup_old_files_default (e : env) : M unit := cleanup_old_files e 7.

(** ** The download endpoint *)

(** [PurePath.suffix] of a one-component name. *)
Definition suffix (name : string) : string :=
  match PyStr.rfind_dot name with
  | Some i =>
      if (0 <? i)%nat && (i <? PyStr.len name - 1)%nat then PyStr.drop i name else ""
  | None => ""
  end.

Definition media_type_map : list (string * string) :=
  [(".docx", "application/vnd.openxmlformats-officedocument.wordprocessingml.document");
   (".pdf", "application/pdf");
   (".xlsx", "application/vnd.openxmlformats-officedocument.spreadsheetml.sheet");
   (".txt", "text/plain")].

(** [d.get(k, default)] on a dict of strings. *)
Fixpoint str_get (d : list (string * string)) (k default : string) : string :=
  match d with
  | [] => default
  | (k', x) :: r => if String.eqb k' k then x else str_get r k default
  end.

Definition media_type_of (filename : string) : string :=
  let file_extension := PyStr.lower (suffix filename) in
  str_get media_type_map file_extension "application/octet-stream".

Record FileResponse : Type := mkResponse {
  resp_path : string;
  resp_filename : string;
  resp_media_type : string
}.

Definition logger_warning (msg : string) : M unit :=
  fun st => (Ok tt, mkState (output_dir st) (log st ++ [LogWarning msg])).

(** A path: [str(filepath)], what [filepath.exists()] returns or raises,
    and [filepath.suffix]. *)
Record path : Type := mkPath {
  path_str : string;
  path_exists : result bool;
  path_suffix : string
}.

(** [output_service.output_dir / filename].  The name of an entry of the
    directory gives the path of that entry, which exists.  Any other
    text ([.], [..], a text with [/], a name the file system refuses)
    leads out of what the state holds: its path is what [elsewhere]
    says. *)
Definition joinpath (elsewhere : string -> path) (filename : string) : M path :=
  fun st =>
    (Ok (match output_dir st !! filename with
         | Some _ => mkPath (filepath_of filename) (Ok true) (suffix filename)
         | None => elsewhere filename
         end),
     st).

Definition download_file (elsewhere : string -> path) (filename : string) : M FileResponse :=
  try_except
    (filepath ← joinpath elsewhere filename;
     present ← lift (path_exists filepath);
     if negb present then
       _ ← logger_warning ("Requested file not found: " +:+ filename);
       raise (HTTPException 404 "File not found")
     else
       let file_extension := PyStr.lower (path_suffix filepath) in
       let media_type := str_get media_type_map file_extension "application/octet-stream" in
       _ ← logger_info ("Serving file for download: " +:+ filename);
       ret (mkResponse (path_str filepath) filename media_type))
    (fun ex =>
       match ex with
       | HTTPException _ _ => raise ex
       | _ =>
           _ ← logger_error ("Download failed: " +:+ exn_str ex);
           raise (HTTPException 500 ("Download failed: " +:+ exn_str ex))
       end).

(** ** Notions used in the statements *)

(** The cell of a dict for a header: [str(item.get(header, ''))]. *)
Definition cell_of (d : dict) (header : string) : string :=
  py_str (dict_get d header (VStr "")).

(** The grid of a list of dicts: the keys of the first one, then a row
    per dict. *)
Definition grid_of (d0 : dict) (ds : list dict) : list (list string) :=
  map fst d0 :: map (fun d => map (cell_of d) (map fst d0)) (d0 :: ds).

(** The number of rows a key takes in the sheet: a header, the column
    headers, a row per item and a blank row for a table; a header, a row
    per item and a blank row for another non-empty list; else one row. *)
Definition entry_height (value : pyobj) : nat :=
  match nonempty_list value with
  | Some items => if all_dicts items then length items + 3 else length items + 2
  | None => 1
  end.

Definition rows_used (entries : dict) : nat :=
  sum_list (map (fun kv => entry_height (snd kv)) entries).

(** The name [generate_output] gives the file of a request. *)
Definition output_name (e : env) (ext : string) : string :=
  "scrape_result_" +:+ now_compact e +:+ "_" +:+ uuid8 e +:+ ext.

(** The state after a document has been saved and the message logged. *)
Definition saved (e : env) (st : state) (filename : string) (doc : document)
    (msg : string) : state :=
  mkState (<[filename := mkFile true (Ok (time_time e)) None (Some doc)]> (output_dir st))
          (log st ++ [LogInfo msg]).

(** The formats of the dispatcher. *)
Definition supported (format_type : string) : Prop :=
  format_type = "text" \/ format_type = "word" \/ format_type = "pdf" \/ format_type = "excel".

(** The flowables of the story that come before the data, and the texts
    of their paragraphs; the library reads them all. *)
Definition pdf_preamble (e : env) (prompt : string) : list flowable :=
  [Paragraph "Web Scraping Results" "CustomTitle";
   Spacer 1 20;
   Paragraph "Scraping Details" "Heading2";
   Paragraph ("<b>Generated:</b> " +:+ now_readable e) "Normal";
   Paragraph ("<b>Prompt:</b> " +:+ prompt) "Normal";
   Spacer 1 20;
   Paragraph "Extracted Data" "Heading2"].

Definition pdf_preamble_texts (e : env) (prompt : string) : list string :=
  ["Web Scraping Results";
   "Scraping Details";
   "<b>Generated:</b> " +:+ now_readable e;
   "<b>Prompt:</b> " +:+ prompt;
   "Extracted Data"].

Definition preamble_accepted (lib : library) (e : env) (prompt : string) : Prop :=
  Forall (fun text => paragraph_error lib text = None) (pdf_preamble_texts e prompt).

(** The extension [generate_output] gives the file of a format, and the
    line it logs. *)
Definition extension_of (format_type : string) : string :=
  if String.eqb format_type "word" then ".docx"
  else if String.eqb format_type "pdf" then ".pdf"
  else if String.eqb format_type "excel" then ".xlsx"
  else ".txt".

Definition generated_message (format_type filename : string) : string :=
  (if String.eqb format_type "word" then "Generated Word document: "
   else if String.eqb format_type "pdf" then "Generated PDF document: "
   else if String.eqb format_type "excel" then "Generated Excel file: "
   else "Generated text file: ") +:+ filename.

(** The document of a format, or the exception of its renderer. *)
Definition rendered (lib : library) (e : env) (data : pyobj) (format_type prompt : string)
  : result document :=
  if String.eqb format_type "word" then
    _ ← check (docx_error lib (word_body e data prompt));
    Ok (WordFile (word_body e data prompt))
  else if String.eqb format_type "pdf" then
    story ← pdf_story lib e data prompt;
    _ ← check (build_error lib story);
    Ok (PdfFile story)
  else if String.eqb format_type "excel" then
    ws ← excel_sheet e data prompt;
    _ ← check (openpyxl_error lib ws);
    Ok (ExcelFile ws)
  else if String.eqb format_type "text" then
    Ok (TextFile (PyStr.join newline (text_content e data prompt)))
  else Raise (ValueError ("Unsupported format: " +:+ format_type)).

(** Libraries that raise nothing, and no path outside the directory. *)
Definition permissive : library :=
  mkLibrary (fun _ => None) (fun _ => None) (fun _ => None) (fun _ => None).

Definition nowhere (filename : string) : path :=
  mkPath (filepath_of filename) (Ok false) (suffix filename).

(** A regular file whose modification time is older than the retention
    window. *)
Definition old_file (e : env) (days : Z) (f : file) : Prop :=
  f_is_file f = true
  /\ exists mtime, f_mtime f = Ok mtime /\ (inject_Z (days * 86400) < time_time e - mtime)%Q.

(** No call of the sweep on the regular files of a directory raises. *)
Definition no_os_error (dir : gmap string file) : Prop :=
  forall name f,
    dir !! name = Some f -> f_is_file f = true ->
    f_unlink_error f = None /\ exists mtime, f_mtime f = Ok mtime.

(** The lines of one key in [_format_dict_for_text]: the body of its
    loop. *)
Definition text_entry (key : string) (value : pyobj) (indent : nat) : list string :=
  let indent_str := PyStr.repeat "  " indent in
  match value with
  | VDict _ =>
      (indent_str +:+ PyStr.upper key +:+ ":") :: text_lines value (indent + 1) ++ [""]
  | VList items =>
      (indent_str +:+ PyStr.upper key +:+ ":")
      :: (fix elems (xs : list pyobj) (i : nat) : list string :=
            match xs with
            | [] => []
            | item :: r =>
                match item with
                | VDict _ =>
                    (indent_str +:+ "  " +:+ pretty i +:+ ".") :: text_lines item (indent + 2)
                | _ => [indent_str +:+ "  " +:+ pretty i +:+ ". " +:+ py_str item]
                end ++ elems r (S i)
            end) items 1%nat
      ++ [""]
  | _ => [indent_str +:+ key +:+ ": " +:+ py_str value]
  end.

(** The extensions of the table of [download_file]. *)
Definition known_extensions : list string := [".docx"; ".pdf"; ".xlsx"; ".txt"].

(** The test of the sweep on one entry: a regular file whose [stat]
    returns and whose age exceeds the window. *)
Definition expired_file (current_time : Q) (days : Z) (f : file) : bool :=
  f_is_file f
  && match f_mtime f with
     | Ok mtime => expired days (current_time - mtime)%Q
     | Raise _ => false
     end.

(** Writing the values [vals] in a row from column [col] on. *)
Definition row_written (ws ws' : worksheet) (row col : nat) (vals : list string) : Prop :=
  forall r c,
    value_at ws' r c
    = if decide (r = row /\ col <= c < col + length vals) then vals !! (c - col)
      else value_at ws r c.

(** Writing the rows of a table from row [row] on, in the columns from 1. *)
Definition rows_written (ws ws' : worksheet) (row : nat) (rows : list (list string))
    (width : nat) : Prop :=
  forall r c,
    value_at ws' r c
    = if decide (row <= r < row + length rows /\ 1 <= c < 1 + width)
      then rows !! (r - row) ≫= (fun vals => vals !! (c - 1))
      else value_at ws r c.

(** Rows outside [[a, b)] keep their values. *)
Definition unchanged_outside (ws ws' : worksheet) (a b : nat) : Prop :=
  forall r c, r < a \/ b <= r -> value_at ws' r c = value_at ws r c.

(** The data of the scenarios, and a clock. *)
Definition sample_env : env :=
  mkEnv "20240101_120000" "2024-01-01 12:00:00" "abcd1234" (1704110400 # 1)%Q.

Definition items_example : pyobj :=
  VDict [("items", VList [VDict [("name", VStr "A"); ("price", VInt 1)];
                          VDict [("name", VStr "B"); ("price", VInt 2)]])].

Definition page_example : pyobj :=
  VDict [("title", VStr "Test Page"); ("content", VStr "Test content")].

(** A list of dicts whose first dict has no key, alone and before a
    table with a missing key. *)
Definition no_column_example : pyobj :=
  VDict [("x", VList [VDict []])].

Definition missing_key_example : pyobj :=
  VDict [("x", VList [VDict []]);
         ("items", VList [VDict [("name", VStr "A")]; VDict []])].

(** A directory with a file of 12 days or so and one of some hours, seen
    from [sample_env]. *)
Definition sample_dir : gmap string file :=
  <["old.txt" := mkFile true (Ok (1703000000 # 1)%Q) None None]>
    (<["new.txt" := mkFile true (Ok (1704100000 # 1)%Q) None None]> ∅).

(** ** More of the service and its callers *)

(** *** The URL check of the scraper service *)

(** The regular expressions of [validate_url]: characters and [\d+]. *)
Inductive re_item : Type :=
| Chr (c : ascii)
| Digits.

Definition is_digit (c : ascii) : bool :=
  let n := nat_of_ascii c in (48 <=? n)%nat && (n <=? 57)%nat.

(** A match of the pattern at the start of the text. *)
Fixpoint re_match (p : list re_item) (s : string) {struct s} : bool :=
  match p with
  | [] => true
  | Chr c :: p' =>
      match s with
      | String a s' => Ascii.eqb a c && re_match p' s'
      | EmptyString => false
      end
  | Digits :: p' =>
      match s with
      | String a s' => is_digit a && (re_match p' s' || re_match (Digits :: p') s')
      | EmptyString => false
      end
  end.

(** [re.search(pattern, s)] as a truth value. *)
Fixpoint re_search (p : list re_item) (s : string) : bool :=
  re_match p s
  || match s with
     | String _ s' => re_search p s'
     | EmptyString => false
     end.

Fixpoint literal (s : string) : list re_item :=
  match s with
  | EmptyString => []
  | String c r => Chr c :: literal r
  end.

(** [r'localhost:\d+'], [r'127\.0\.0\.1'] and [r'file://'] *)
Definition invalid_patterns : list (list re_item) :=
  [literal "localhost:" ++ [Digits]; literal "127.0.0.1"; literal "file://"].

(** [s.startswith(p)] *)
Fixpoint startswith (p s : string) : bool :=
  match p, s with
  | EmptyString, _ => true
  | String a p', String b s' => Ascii.eqb a b && startswith p' s'
  | String _ _, EmptyString => false
  end.

Definition validate_url (url : string) : bool :=
  if negb (startswith "http://" url || startswith "https://" url) then false
  else if existsb (fun pattern => re_search pattern url) invalid_patterns then false
  else true.

(** *** The scrape endpoint *)

(** Python's whitespace on ASCII, and [s.strip()]. *)
Definition is_space (c : ascii) : bool :=
  let n := nat_of_ascii c in
  ((9 <=? n)%nat && (n <=? 13)%nat) || ((28 <=? n)%nat && (n <=? 32)%nat).

Fixpoint lstrip (s : string) : string :=
  match s with
  | EmptyString => EmptyString
  | String c r => if is_space c then lstrip r else s
  end.

Fixpoint rstrip (s : string) : string :=
  match s with
  | EmptyString => EmptyString
  | String c r =>
      match rstrip r with
      | EmptyString => if is_space c then EmptyString else String c EmptyString
      | r' => String c r'
      end
  end.

Definition strip (s : string) : string := rstrip (lstrip s).

(** [not s] for a string *)
Definition is_empty (s : string) : bool :=
  match s with
  | EmptyString => true
  | String _ _ => false
  end.

Record ScrapeRequest : Type := mkRequest {
  req_url : string;
  req_prompt : string;
  req_output_format : string
}.

Record ScrapeResponse : Type := mkScrapeResponse {
  sr_success : bool;
  sr_message : string;
  sr_data : option (list (string * pyobj));
  sr_download_url : option string;
  sr_filename : option string
}.

Section Scrape.

(** The libraries of the renderers, and the two services the endpoint
    awaits, as what they return or raise (their own log lines are left
    out):
    [scraper_service.fetch_content(url)] and
    [llm_service.process_content(content, prompt)]; and the text of the
    error pydantic raises when [data] is not a dict. *)
Variable lib : library.
Variable fetch_content : string -> result (string * string).
Variable process_content : string -> string -> result pyobj.
Variable validation_error : pyobj -> string.

(** The constructor of the response model: the field [data] is
    [Optional[dict]], and the error of the validation is a
    [ValueError]. *)
Definition make_response (success : bool) (message : string) (data : pyobj)
    (download_url filename : string) : result ScrapeResponse :=
  match data with
  | VDict entries =>
      Ok (mkScrapeResponse success message (Some entries) (Some download_url) (Some filename))
  | VNone => Ok (mkScrapeResponse success message None (Some download_url) (Some filename))
  | _ => Raise (ValueError (validation_error data))
  end.

(** The endpoint returns its response and whether it has scheduled the
    cleanup as a background task. *)
Definition scrape_webpage (e : env) (request : ScrapeRequest) : M (ScrapeResponse * bool) :=
  try_except
    (if negb (validate_url (req_url request)) then
       _ ← logger_warning ("Invalid URL provided: " +:+ req_url request);
       raise (HTTPException 400 "Invalid URL. Please provide a valid HTTP/HTTPS URL.")
     else
       _ ← logger_info ("Starting scrape for URL: " +:+ req_url request);
       '(raw_html, cleaned_content) ← lift (fetch_content (req_url request));
       if is_empty (strip cleaned_content) then
         raise (HTTPException 400 "No readable content found on the webpage.")
       else
         _ ← logger_info "Processing content with LLM";
         processed_data ← lift (process_content cleaned_content (req_prompt request));
         _ ← logger_info ("Generating " +:+ req_output_format request +:+ " output");
         '(filename, filepath) ← generate_output lib e processed_data
                                   (req_output_format request) (req_prompt request);
         let scheduled := true in
         _ ← logger_info ("Scraping completed successfully. Generated file: " +:+ filename);
         response ← lift (make_response true "Scraping completed successfully"
                            processed_data ("/download/" +:+ filename) filename);
         ret (response, scheduled))
    (fun ex =>
       match ex with
       | HTTPException _ _ => raise ex
       | _ =>
           _ ← logger_error ("Scraping failed: " +:+ exn_str ex);
           raise (HTTPException 500 ("Scraping failed: " +:+ exn_str ex))
       end).

(** A request, then the background task when the endpoint has returned;
    [e'] is the clock of the task. *)
Definition serve_scrape (e e' : env) (request : ScrapeRequest) : M ScrapeResponse :=
  '(response, scheduled) ← scrape_webpage e request;
  _ ← (if scheduled : bool then cleanup_old_files_default e' else ret tt);
  ret response.

End Scrape.

(** *** Notions used in the further statements *)

Definition is_scalar (v : pyobj) : bool :=
  match v with
  | VDict _ | VList _ => false
  | _ => true
  end.

Definition is_doc_paragraph (b : docx_block) : Prop :=
  match b with
  | DocParagraph _ _ => True
  | Heading _ _ _ => False
  end.

(** The blocks of one key in [_add_dict_to_word]: the body of its loop. *)
Definition word_entry (key : string) (value : pyobj) (level : nat) : list docx_block :=
  match value with
  | VDict _ =>
      (if (level =? 0)%nat
       then [Heading (PyStr.title key) 2 None]
       else [DocParagraph (PyStr.repeat "  " level +:+ bullet +:+ " " +:+ key +:+ ":")
                          (Some "List Bullet")])
      ++ word_blocks value (level + 1)
  | VList items =>
      DocParagraph (PyStr.repeat "  " level +:+ bullet +:+ " " +:+ key +:+ ":")
                   (Some "List Bullet")
      :: (fix elems (xs : list pyobj) : list docx_block :=
            match xs with
            | [] => []
            | item :: r =>
                match item with
                | VDict _ => word_blocks item (level + 1)
                | _ => [DocParagraph (PyStr.repeat "  " (level + 1) +:+ "- " +:+ py_str item) None]
                end ++ elems r
            end) items
  | _ =>
      [DocParagraph (PyStr.repeat "  " level +:+ bullet +:+ " " +:+ key +:+ ": " +:+ py_str value)
                    None]
  end.

(** A line that is empty or starts with the indentation of [indent]. *)
Definition indented (indent : nat) (line : string) : Prop :=
  line = "" \/ exists rest, line = PyStr.repeat "  " indent +:+ rest.

(** Services for the examples: a page with text, and a model that returns
    a dict or a list. *)
Definition sample_fetch (url : string) : result (string * string) :=
  Ok ("<html><body><h1>Test Page</h1></body></html>", "Test Page").

Definition failing_fetch (url : string) : result (string * string) :=
  Raise (OSError "Failed to fetch content: connection refused").

Definition sample_process (content prompt : string) : result pyobj := Ok page_example.

Definition list_process (content prompt : string) : result pyobj :=
  Ok (VList [VStr "Test Page"]).

Definition sample_validation_error (data : pyobj) : string :=
  "1 validation error for ScrapeResponse".

Definition sample_request : ScrapeRequest :=
  mkRequest "https://example.com/" "Extract the title" "text".


(** A directory with a file whose removal fails. *)
Definition locked_dir : gmap string file :=
  <["locked.txt" := mkFile true (Ok (1703000000 # 1)%Q) (Some (OSError "Permission denied")) None]>
    sample_dir.

(** ** Properties *)

(** Unfolding the binds of [result] and of [M]. *)
Ltac unbind := unfold mbind, result_bind, bind.
Ltac unbindM := unfold mbind, M_bind, bindM, lift.

(** *** Dictionaries and tables *)

Lemma lookup_map_Some {A B : Type} (f : A -> B) (l : list A) (i : nat) (x : A) :
  l !! i = Some x -> map f l !! i = Some (f x).
Proof. revert i. induction l; intros [|i] H; simplify_eq/=; auto. Qed.

Lemma dict_get_missing (d : dict) (k : string) (default : pyobj) :
  k ∉ map fst d -> dict_get d k default = default.
Proof.
  induction d as [|[k' x] d IH]; simpl; [done|].
  intros Hk. apply not_elem_of_cons in Hk as [Hne Hk].
  destruct (String.eqb_spec k' k); [congruence|auto].
Qed.

Lemma dict_get_head (k : string) (x : pyobj) (d : dict) (default : pyobj) :
  dict_get ((k, x) :: d) k default = x.
Proof. simpl. by rewrite String.eqb_refl. Qed.

Lemma cell_of_missing (d : dict) (header : string) :
  header ∉ map fst d -> cell_of d header = "".
Proof. intros H. unfold cell_of. by rewrite dict_get_missing. Qed.

Lemma table_row_dict (d : dict) (headers : list string) :
  table_row (VDict d) headers = Ok (map (cell_of d) headers).
Proof.
  unfold table_row. induction headers as [|h hs IH]; [done|].
  cbn [for_each]. rewrite IH. reflexivity.
Qed.

Lemma table_rows_dicts (ds : list dict) (headers : list string) :
  for_each (fun item => table_row item headers) (map VDict ds)
  = Ok (map (fun d => map (cell_of d) headers) ds).
Proof.
  induction ds as [|d ds IH]; [done|].
  cbn [for_each map]. rewrite table_row_dict, IH. reflexivity.
Qed.

Lemma all_dicts_map (ds : list dict) : all_dicts (map VDict ds) = true.
Proof. induction ds; simpl; auto. Qed.

Lemma all_dicts_inv (items : list pyobj) :
  all_dicts items = true -> exists ds, items = map VDict ds.
Proof.
  induction items as [|x items IH]; simpl; intros H.
  - by exists [].
  - apply andb_true_iff in H as [Hx H]. destruct (IH H) as [ds ->].
    destruct x; try discriminate. by eexists (_ :: ds).
Qed.

Lemma table_candidate_inv (v : pyobj) :
  table_candidate v = true -> exists d0 ds, v = VList (map VDict (d0 :: ds)).
Proof.
  unfold table_candidate. destruct v as [| | | | |items|]; try discriminate.
  destruct items as [|x items]; [discriminate|]. cbn [nonempty_list].
  intros H. destruct (all_dicts_inv _ H) as [[|d0 ds] E]; [discriminate|].
  exists d0, ds. by rewrite E.
Qed.

Lemma table_candidate_dicts (d0 : dict) (ds : list dict) :
  table_candidate (VList (map VDict (d0 :: ds))) = true.
Proof. unfold table_candidate. cbn [map nonempty_list]. apply (all_dicts_map (d0 :: ds)). Qed.

Lemma any_table_app (pre post : dict) :
  any_table (pre ++ post) = any_table pre || any_table post.
Proof.
  induction pre as [|[k v] pre IH]; [done|]. simpl.
  destruct (nonempty_list v); [destruct (all_dicts l)|]; auto.
Qed.

Lemma any_table_candidate (k : string) (v : pyobj) (post : dict) :
  any_table ((k, v) :: post) = table_candidate v || any_table post.
Proof.
  unfold table_candidate. simpl.
  destruct (nonempty_list v); [destruct (all_dicts l)|]; auto.
Qed.

Lemma first_table_skip (pre rest : dict) :
  any_table pre = false -> first_table (pre ++ rest) = first_table rest.
Proof.
  induction pre as [|[k v] pre IH]; [done|]. simpl.
  destruct (nonempty_list v); [destruct (all_dicts l)|]; auto; discriminate.
Qed.

Lemma first_table_candidate (k : string) (d0 : dict) (ds : list dict) (post : dict) :
  first_table ((k, VList (map VDict (d0 :: ds))) :: post) = Ok (grid_of d0 ds).
Proof.
  cbn [first_table]. pose proof (all_dicts_map (d0 :: ds)) as Hall.
  cbn [map nonempty_list] in *. rewrite Hall.
  cbn [py_keys]. change (VDict d0 :: map VDict ds) with (map VDict (d0 :: ds)).
  unbind. rewrite table_rows_dicts. reflexivity.
Qed.

Lemma dict_to_table_first (pre : dict) (k : string) (d0 : dict) (ds : list dict) (post : dict) :
  any_table pre = false ->
  _dict_to_table_data (VDict (pre ++ (k, VList (map VDict (d0 :: ds))) :: post))
  = Ok (grid_of d0 ds).
Proof.
  intros Hpre. unfold _dict_to_table_data. cbn [py_items].
  unbind. rewrite first_table_skip by done.
  apply first_table_candidate.
Qed.

(** *** The flowables of the story *)

Lemma paragraph_accepted (lib : library) (text style : string) :
  paragraph_error lib text = None -> paragraph lib text style = Ok (Paragraph text style).
Proof. intros H. unfold paragraph. by rewrite H. Qed.

Lemma rows_columns (header : list string) (l : list dict) :
  max_list (map (fun row : list string => length row)
              (map (fun d => map (cell_of d) header) l))
  = match l with
    | [] => 0%nat
    | _ :: _ => length header
    end.
Proof.
  induction l as [|d l IH]; [done|].
  cbn [map max_list]. rewrite IH, length_map. destruct l; cbn; lia.
Qed.

(** [Table] takes the grid of a list of dicts when the first dict has a
    key, and refuses it when that dict is empty. *)
Lemma table_grid_of (d0 : dict) (ds : list dict) :
  table (grid_of d0 ds)
  = match d0 with
    | [] => Raise (ValueError "must have at least a row and column")
    | _ :: _ => Ok (Table (grid_of d0 ds))
    end.
Proof.
  unfold table, grid_of. cbn [length Nat.eqb orb].
  change (map (fun row : list string => length row)
            (map fst d0 :: map (fun d => map (cell_of d) (map fst d0)) (d0 :: ds)))
    with (length (map fst d0)
          :: map (fun row : list string => length row)
               (map (fun d => map (cell_of d) (map fst d0)) (d0 :: ds))).
  cbn [max_list]. rewrite rows_columns, length_map, Nat.max_id.
  by destruct d0.
Qed.

(** When the library reads the paragraphs before the data, the story is
    these and what the data adds. *)
Lemma pdf_story_accepted (lib : library) (e : env) (data : pyobj) (prompt : string) :
  preamble_accepted lib e prompt ->
  pdf_story lib e data prompt
  = if isinstance_dict data && _is_tabular_data data then
      table_data ← _dict_to_table_data data;
      match table_data with
      | [] => Ok (pdf_preamble e prompt)
      | _ :: _ =>
          t ← table table_data;
          Ok (pdf_preamble e prompt ++ [t])
      end
    else
      formatted_text ← paragraph lib (_format_data_for_pdf data 0) "Normal";
      Ok (pdf_preamble e prompt ++ [formatted_text]).
Proof.
  intros H. unfold preamble_accepted, pdf_preamble_texts in H.
  apply Forall_cons in H as [H1 H]. apply Forall_cons in H as [H2 H].
  apply Forall_cons in H as [H3 H]. apply Forall_cons in H as [H4 H].
  apply Forall_cons in H as [H5 _].
  unfold pdf_story.
  rewrite (paragraph_accepted _ _ _ H1), (paragraph_accepted _ _ _ H2),
    (paragraph_accepted _ _ _ H3), (paragraph_accepted _ _ _ H4),
    (paragraph_accepted _ _ _ H5).
  reflexivity.
Qed.

(** When the library refuses one of them, there is no story. *)
Lemma pdf_story_returns (lib : library) (e : env) (data : pyobj) (prompt : string)
    (story : list flowable) :
  pdf_story lib e data prompt = Ok story -> preamble_accepted lib e prompt.
Proof.
  unfold pdf_story, paragraph, preamble_accepted, pdf_preamble_texts. unbind.
  intros H.
  destruct (paragraph_error lib "Web Scraping Results") eqn:H1; [discriminate|].
  destruct (paragraph_error lib "Scraping Details") eqn:H2; [discriminate|].
  destruct (paragraph_error lib ("<b>Generated:</b> " +:+ now_readable e)) eqn:H3;
    [discriminate|].
  destruct (paragraph_error lib ("<b>Prompt:</b> " +:+ prompt)) eqn:H4; [discriminate|].
  destruct (paragraph_error lib "Extracted Data") eqn:H5; [discriminate|].
  repeat constructor; assumption.
Qed.

Lemma pdf_story_first (lib : library) (e : env) (prompt : string) (pre : dict) (k : string)
    (d0 : dict) (ds : list dict) (post : dict) :
  any_table pre = false ->
  preamble_accepted lib e prompt ->
  pdf_story lib e (VDict (pre ++ (k, VList (map VDict (d0 :: ds))) :: post)) prompt
  = match d0 with
    | [] => Raise (ValueError "must have at least a row and column")
    | _ :: _ => Ok (pdf_preamble e prompt ++ [Table (grid_of d0 ds)])
    end.
Proof.
  intros Hpre Hacc. rewrite pdf_story_accepted by done.
  cbn [isinstance_dict _is_tabular_data andb].
  rewrite any_table_app, Hpre, any_table_candidate, table_candidate_dicts.
  cbn [orb]. rewrite dict_to_table_first by done. unbind.
  change (match grid_of d0 ds with
          | [] => Ok (pdf_preamble e prompt)
          | _ :: _ =>
              match table (grid_of d0 ds) with
              | Ok t => Ok (pdf_preamble e prompt ++ [t])
              | Raise ex => Raise ex
              end
          end
          = match d0 with
            | [] => Raise (ValueError "must have at least a row and column")
            | _ :: _ => Ok (pdf_preamble e prompt ++ [Table (grid_of d0 ds)])
            end).
  rewrite table_grid_of. by destruct d0.
Qed.


(** *** Cells of a sheet *)

Lemma value_at_set_value (ws : worksheet) (row col : nat) (v : string) (r c : nat) :
  value_at (set_value ws row col v) r c
  = if decide ((r, c) = (row, col)) then Some v else value_at ws r c.
Proof.
  unfold value_at, get_cell, set_value, put_cell. cbn [cells].
  rewrite lookup_insert. destruct (decide ((row, col) = (r, c))) as [E|N].
  - rewrite decide_True by done. reflexivity.
  - rewrite decide_False by congruence. reflexivity.
Qed.

Lemma value_at_set_font (ws : worksheet) (row col : nat) (f : Font) (r c : nat) :
  value_at (set_font ws row col f) r c = value_at ws r c.
Proof.
  unfold value_at, get_cell, set_font, put_cell. cbn [cells].
  rewrite lookup_insert. destruct (decide ((row, col) = (r, c))) as [E|N]; [|done].
  by inversion E; subst.
Qed.

Lemma value_at_set_fill (ws : worksheet) (row col : nat) (f : string) (r c : nat) :
  value_at (set_fill ws row col f) r c = value_at ws r c.
Proof.
  unfold value_at, get_cell, set_fill, put_cell. cbn [cells].
  rewrite lookup_insert. destruct (decide ((row, col) = (r, c))) as [E|N]; [|done].
  by inversion E; subst.
Qed.

Lemma value_at_section_header (ws : worksheet) (row : nat) (text : string) (r c : nat) :
  value_at (section_header ws row text) r c
  = if decide ((r, c) = (row, 1%nat)) then Some text else value_at ws r c.
Proof.
  unfold section_header.
  by rewrite value_at_set_fill, value_at_set_font, value_at_set_value.
Qed.

Lemma header_cells_written (headers : list string) (ws : worksheet) (row col : nat) :
  row_written ws (header_cells ws row col headers) row col headers.
Proof.
  revert ws col. induction headers as [|h hs IH]; intros ws col r c; cbn [header_cells length].
  - rewrite decide_False by lia. reflexivity.
  - rewrite IH, value_at_set_fill, value_at_set_font, value_at_set_value.
    destruct (decide (r = row /\ S col <= c < S col + length hs)) as [[-> Hc]|Hn].
    + rewrite decide_True by lia.
      replace (c - col) with (S (c - S col)) by lia. reflexivity.
    + destruct (decide ((r, c) = (row, col))) as [E|Hne].
      * inversion E; subst. rewrite decide_True by lia. by rewrite Nat.sub_diag.
      * rewrite decide_False; [done|]. intros [-> Hc].
        destruct (decide (c = col)); [congruence|]. apply Hn. lia.
Qed.

Lemma row_cells_written (d : dict) (headers : list string) (ws : worksheet) (row col : nat) :
  exists ws',
    row_cells ws row col (VDict d) headers = Ok ws'
    /\ row_written ws ws' row col (map (cell_of d) headers).
Proof.
  revert ws col. induction headers as [|h hs IH]; intros ws col; cbn [row_cells map length].
  - eexists; split; [done|]. intros r c. rewrite decide_False by (simpl; lia). reflexivity.
  - cbn [py_get]. unbind.
    destruct (IH (set_value ws row col (py_str (dict_get d h (VStr "")))) (S col))
      as (ws' & -> & Hw).
    eexists; split; [done|]. intros r c. rewrite Hw, value_at_set_value. cbn [length].
    destruct (decide (r = row /\ S col <= c < S col + length (map (cell_of d) hs))) as [[-> Hc]|Hn].
    + rewrite decide_True by lia.
      replace (c - col) with (S (c - S col)) by lia. reflexivity.
    + destruct (decide ((r, c) = (row, col))) as [E|Hne].
      * inversion E; subst. rewrite decide_True by lia. by rewrite Nat.sub_diag.
      * rewrite decide_False; [done|]. intros [-> Hc].
        destruct (decide (c = col)); [congruence|]. apply Hn. lia.
Qed.

Lemma data_rows_written (ds : list dict) (headers : list string) (ws : worksheet) (row : nat) :
  exists ws',
    data_rows ws row (map VDict ds) headers = Ok (ws', row + length ds)
    /\ rows_written ws ws' row (map (fun d => map (cell_of d) headers) ds) (length headers).
Proof.
  revert ws row. induction ds as [|d ds IH]; intros ws row; cbn [data_rows map length].
  - eexists; split; [by rewrite Nat.add_0_r|].
    intros r c. rewrite decide_False by (simpl; lia). reflexivity.
  - destruct (row_cells_written d headers ws row 1) as (ws1 & -> & H1).
    unbind.
    destruct (IH ws1 (S row)) as (ws' & -> & Hw).
    eexists; split; [f_equal; f_equal; lia|]. cbn [map].
    set (rows := map (fun d => map (cell_of d) headers) ds) in *.
    intros r c. rewrite Hw, H1, length_map. cbn [length].
    destruct (decide (S row <= r < S row + length rows /\ 1 <= c < 1 + length headers))
      as [Hin|Hn].
    + rewrite decide_True by lia.
      replace (r - row) with (S (r - S row)) by lia. reflexivity.
    + destruct (decide (r = row /\ 1 <= c < 1 + length headers)) as [[-> Hc]|Hn'].
      * rewrite decide_True by lia. by rewrite Nat.sub_diag.
      * rewrite decide_False; [done|]. intros [Hr Hc].
        destruct (decide (r = row)); [apply Hn'; lia|apply Hn; lia].
Qed.

Lemma list_rows_written (items : list pyobj) (ws : worksheet) (row : nat) :
  exists ws',
    list_rows ws row items = (ws', row + length items)
    /\ forall r c,
         value_at ws' r c
         = if decide (row <= r < row + length items /\ c = 1%nat)
           then py_str <$> items !! (r - row)
           else value_at ws r c.
Proof.
  revert ws row. induction items as [|x items IH]; intros ws row; cbn [list_rows length].
  - eexists; split; [by rewrite Nat.add_0_r|].
    intros r c. rewrite decide_False by lia. reflexivity.
  - destruct (IH (set_value ws row 1 (py_str x)) (S row)) as (ws' & -> & Hw).
    eexists; split; [f_equal; lia|].
    intros r c. rewrite Hw, value_at_set_value.
    destruct (decide (S row <= r < S row + length items /\ c = 1%nat)) as [Hin|Hn].
    + rewrite decide_True by lia.
      replace (r - row) with (S (r - S row)) by lia. reflexivity.
    + destruct (decide ((r, c) = (row, 1%nat))) as [E|Hne].
      * inversion E; subst. rewrite decide_True by lia. by rewrite Nat.sub_diag.
      * rewrite decide_False; [done|]. intros [Hr ->].
        destruct (decide (r = row)); [congruence|apply Hn; lia].
Qed.

(** What [excel_entry] writes for a table: the title-cased key, the
    headers, and the rows of the grid. *)
Lemma excel_entry_table (ws : worksheet) (row : nat) (key : string)
    (d0 : dict) (ds : list dict) :
  exists ws',
    excel_entry ws row key (VList (map VDict (d0 :: ds)))
    = Ok (ws', row + (length (d0 :: ds) + 3))
    /\ forall r c,
         value_at ws' r c
         = if decide ((r, c) = (row, 1%nat)) then Some (PyStr.title key)
           else if decide (r = S row /\ 1 <= c < 1 + length d0)
           then map fst d0 !! (c - 1)
           else if decide (S (S row) <= r < S (S row) + length (d0 :: ds)
                           /\ 1 <= c < 1 + length d0)
           then map (fun d => map (cell_of d) (map fst d0)) (d0 :: ds) !! (r - S (S row))
                ≫= (fun vals => vals !! (c - 1))
           else value_at ws r c.
Proof.
  unfold excel_entry. pose proof (all_dicts_map (d0 :: ds)) as Hall.
  cbn [map nonempty_list] in *. rewrite Hall. cbn [py_keys].
  unbind.
  set (ws1 := section_header ws row (PyStr.title key)).
  set (ws2 := header_cells ws1 (S row) 1 (map fst d0)).
  destruct (data_rows_written (d0 :: ds) (map fst d0) ws2 (S (S row))) as (ws3 & E & Hw).
  cbn [map] in E. rewrite E. eexists; split; [f_equal; f_equal; cbn [length]; lia|].
  intros r c. rewrite Hw. unfold ws2. rewrite header_cells_written.
  unfold ws1. rewrite value_at_section_header. rewrite !length_map.
  destruct (decide ((r, c) = (row, 1%nat))) as [Eq|Hne].
  - inversion Eq; subst. rewrite !decide_False by lia. reflexivity.
  - destruct (decide (S (S row) <= r < S (S row) + length (d0 :: ds)
                      /\ 1 <= c < 1 + length d0)) as [Hin|Hn].
    + rewrite (decide_False (P := r = S row /\ _)) by lia. reflexivity.
    + reflexivity.
Qed.

Lemma unchanged_outside_trans (ws1 ws2 ws3 : worksheet) (a b c : nat) :
  a <= b -> b <= c ->
  unchanged_outside ws1 ws2 a b -> unchanged_outside ws2 ws3 b c ->
  unchanged_outside ws1 ws3 a c.
Proof. intros ?? H1 H2 r col Hr. rewrite H2, H1 by lia. reflexivity. Qed.

Lemma excel_entry_frame (ws : worksheet) (row : nat) (key : string) (value : pyobj) :
  exists ws',
    excel_entry ws row key value = Ok (ws', row + entry_height value)
    /\ unchanged_outside ws ws' row (row + entry_height value).
Proof.
  destruct (table_candidate value) eqn:Hc.
  - destruct (table_candidate_inv _ Hc) as (d0 & ds & ->).
    destruct (excel_entry_table ws row key d0 ds) as (ws' & E & Hw).
    assert (Hh : entry_height (VList (map VDict (d0 :: ds))) = length (d0 :: ds) + 3).
    { unfold entry_height. pose proof (all_dicts_map (d0 :: ds)) as Hall.
      cbn [map nonempty_list] in *. rewrite Hall. cbn [length]. by rewrite length_map. }
    rewrite Hh. exists ws'; split; [done|].
    intros r c Hr. rewrite Hw. clear Hw. cbn [length] in *.
    destruct (decide ((r, c) = (row, 1%nat))) as [Eq|_]; [inversion Eq; lia|].
    rewrite decide_False by lia. rewrite decide_False by lia. reflexivity.
  - unfold table_candidate in Hc. unfold excel_entry, entry_height.
    destruct (nonempty_list value) as [items|] eqn:Hn.
    + rewrite Hc.
      destruct (list_rows_written items (section_header ws row (PyStr.title key)) (S row))
        as (ws' & -> & Hw).
      eexists; split; [f_equal; f_equal; lia|].
      intros r c Hr. rewrite Hw, value_at_section_header. clear Hw.
      rewrite decide_False by lia.
      destruct (decide ((r, c) = (row, 1%nat))) as [Eq|_]; [inversion Eq; lia|done].
    + eexists; split; [f_equal; f_equal; lia|].
      intros r c Hr. rewrite !value_at_set_value.
      destruct (decide ((r, c) = (row, 2%nat))) as [Eq|_]; [inversion Eq; lia|].
      destruct (decide ((r, c) = (row, 1%nat))) as [Eq|_]; [inversion Eq; lia|done].
Qed.

Lemma rows_used_cons (k : string) (v : pyobj) (entries : dict) :
  rows_used ((k, v) :: entries) = entry_height v + rows_used entries.
Proof. reflexivity. Qed.

Lemma rows_used_app (pre post : dict) :
  rows_used (pre ++ post) = rows_used pre + rows_used post.
Proof.
  induction pre as [|[k v] pre IH]; [done|].
  cbn [app]. rewrite !rows_used_cons, IH. lia.
Qed.

Lemma excel_entries_frame (entries : dict) (ws : worksheet) (row : nat) :
  exists ws',
    excel_entries ws row entries = Ok (ws', row + rows_used entries)
    /\ unchanged_outside ws ws' row (row + rows_used entries).
Proof.
  revert ws row. induction entries as [|[k v] entries IH]; intros ws row.
  - exists ws. split; [cbn; by rewrite Nat.add_0_r|]. by intros r c _.
  - cbn [excel_entries]. destruct (excel_entry_frame ws row k v) as (ws1 & -> & H1).
    unbind.
    destruct (IH ws1 (row + entry_height v)) as (ws2 & -> & H2).
    rewrite rows_used_cons, Nat.add_assoc. exists ws2. split; [done|].
    eapply unchanged_outside_trans; [| |exact H1|exact H2]; lia.
Qed.

Lemma excel_entries_app (pre post : dict) (ws : worksheet) (row : nat) :
  excel_entries ws row (pre ++ post)
  = '(ws1, row1) ← excel_entries ws row pre; excel_entries ws1 row1 post.
Proof.
  revert ws row. induction pre as [|[k v] pre IH]; intros ws row; [done|].
  cbn [excel_entries app]. unbind.
  destruct (excel_entry ws row k v) as [[ws1 row1]|]; [|done].
  apply IH.
Qed.

Lemma value_at_blank (title : string) (widths : gmap nat nat) (r c : nat) :
  value_at (mkSheet title ∅ widths) r c = None.
Proof. unfold value_at, get_cell. cbn [cells]. by rewrite lookup_empty. Qed.

Lemma excel_preamble_rows (e : env) (prompt : string) (r c : nat) :
  5 <= r -> value_at (excel_preamble e prompt) r c = None.
Proof.
  intros Hr. unfold excel_preamble.
  rewrite !value_at_set_value, value_at_set_font, value_at_set_value, value_at_blank.
  repeat (case_decide; [simplify_eq; lia|]). reflexivity.
Qed.

Lemma adjust_columns_cells (ws0 : worksheet) (cols : list nat) (ws : worksheet) :
  cells (adjust_columns ws0 ws cols) = cells ws.
Proof.
  revert ws. induction cols as [|col cols IH]; intros ws; [done|].
  cbn [adjust_columns]. by rewrite IH.
Qed.

Lemma value_at_auto_adjust (ws : worksheet) (r c : nat) :
  value_at (auto_adjust ws) r c = value_at ws r c.
Proof. unfold value_at, get_cell, auto_adjust. by rewrite adjust_columns_cells. Qed.

(** The sheet of a dict, seen from one of its keys: the key is written
    from the row [6 + rows_used pre] on a sheet that is blank from that
    row on, and the keys after it leave its rows alone. *)
Lemma excel_sheet_entry (e : env) (prompt : string) (pre : dict) (k : string)
    (v : pyobj) (post : dict) :
  exists ws1 ws2 ws,
    excel_sheet e (VDict (pre ++ (k, v) :: post)) prompt = Ok ws
    /\ excel_entry ws1 (6 + rows_used pre) k v = Ok (ws2, 6 + rows_used pre + entry_height v)
    /\ (forall r c, 6 + rows_used pre <= r -> value_at ws1 r c = None)
    /\ (forall r c, r < 6 + rows_used pre + entry_height v ->
                    value_at ws r c = value_at ws2 r c).
Proof.
  unfold excel_sheet, excel_cells, _add_dict_to_excel. cbn [isinstance_dict py_items].
  unfold mbind at 3. unfold result_bind, bind. rewrite excel_entries_app.
  destruct (excel_entries_frame pre (excel_preamble e prompt) 6) as (ws1 & -> & H1).
  unbind. cbn [excel_entries].
  destruct (excel_entry_frame ws1 (6 + rows_used pre) k v) as (ws2 & E2 & H2).
  rewrite E2. unbind.
  destruct (excel_entries_frame post ws2 (6 + rows_used pre + entry_height v))
    as (ws3 & -> & H3).
  exists ws1, ws2, (auto_adjust ws3). repeat split; [done| |].
  - intros r c Hr. rewrite H1 by lia. apply excel_preamble_rows. lia.
  - intros r c Hr. rewrite value_at_auto_adjust. apply H3. lia.
Qed.

(** *** The sheet and the dispatcher *)

Lemma excel_cells_total (e : env) (data : pyobj) (prompt : string) :
  exists ws,
    excel_cells e data prompt = Ok ws
    /\ forall r c, r < 6 -> value_at ws r c = value_at (excel_preamble e prompt) r c.
Proof.
  unfold excel_cells. destruct (isinstance_dict data) eqn:Hd.
  - destruct data; try discriminate. unfold _add_dict_to_excel. cbn [py_items].
    unbind.
    destruct (excel_entries_frame entries (excel_preamble e prompt) 6) as (ws & -> & H).
    exists ws. split; [done|]. intros r c Hr. apply H. lia.
  - eexists. split; [done|]. intros r c Hr.
    rewrite value_at_set_value, value_at_section_header.
    repeat (case_decide; [simplify_eq; lia|]). reflexivity.
Qed.

(** What [generate_output] does, from the document of the format or the
    exception of its renderer: the file is written and the line logged,
    or the error is logged and raised again with the directory as it
    was. *)
Lemma generate_output_rendered (lib : library) (e : env) (data : pyobj)
    (format_type prompt : string) (st : state) :
  generate_output lib e data format_type prompt st
  = match rendered lib e data format_type prompt with
    | Ok doc =>
        (Ok (output_name e (extension_of format_type),
             filepath_of (output_name e (extension_of format_type))),
         saved e st (output_name e (extension_of format_type)) doc
               (generated_message format_type (output_name e (extension_of format_type))))
    | Raise ex =>
        (Raise ex,
         mkState (output_dir st)
                 (log st ++ [LogError ("Error generating " +:+ format_type +:+ " output: "
                                       +:+ exn_str ex)]))
    end.
Proof.
  unfold generate_output, rendered, extension_of, generated_message, try_except.
  destruct (String.eqb format_type "word").
  { unfold _generate_word. unbindM. unbind.
    by destruct (docx_error lib (word_body e data prompt)). }
  destruct (String.eqb format_type "pdf").
  { unfold _generate_pdf. unbindM. unbind.
    destruct (pdf_story lib e data prompt) as [story|]; [|reflexivity].
    by destruct (build_error lib story). }
  destruct (String.eqb format_type "excel").
  { unfold _generate_excel. unbindM. unbind.
    destruct (excel_sheet e data prompt) as [ws|]; [|reflexivity].
    by destruct (openpyxl_error lib ws). }
  destruct (String.eqb format_type "text"); reflexivity.
Qed.

Lemma rendered_supported (lib : library) (e : env) (data : pyobj)
    (format_type prompt : string) (doc : document) :
  rendered lib e data format_type prompt = Ok doc -> supported format_type.
Proof.
  unfold rendered, supported.
  destruct (String.eqb_spec format_type "word"); [auto|].
  destruct (String.eqb_spec format_type "pdf"); [auto|].
  destruct (String.eqb_spec format_type "excel"); [auto|].
  destruct (String.eqb_spec format_type "text"); [auto|discriminate].
Qed.

(** When [generate_output] returns, it has saved the document of the
    format under the name it returns. *)
Lemma generate_output_returns (lib : library) (e : env) (data : pyobj)
    (format_type prompt : string) (st st1 : state) (name filepath : string) :
  generate_output lib e data format_type prompt st = (Ok (name, filepath), st1) ->
  exists doc,
    rendered lib e data format_type prompt = Ok doc
    /\ name = output_name e (extension_of format_type)
    /\ filepath = filepath_of name
    /\ st1 = saved e st name doc (generated_message format_type name).
Proof.
  rewrite generate_output_rendered.
  destruct (rendered lib e data format_type prompt) as [doc|]; [|discriminate].
  intros [= <- <- <-]. by exists doc.
Qed.

(** *** The table of a key in the sheet *)

Lemma excel_table_cells (e : env) (prompt : string) (pre : dict) (k : string)
    (d0 : dict) (ds : list dict) (post : dict) :
  exists ws,
    excel_sheet e (VDict (pre ++ (k, VList (map VDict (d0 :: ds))) :: post)) prompt = Ok ws
    /\ value_at ws (6 + rows_used pre) 1 = Some (PyStr.title k)
    /\ (forall j h, map fst d0 !! j = Some h ->
          value_at ws (6 + rows_used pre + 1) (j + 1) = Some h)
    /\ (forall c, length d0 < c -> value_at ws (6 + rows_used pre + 1) c = None)
    /\ (forall i d j h,
          (d0 :: ds) !! i = Some d -> map fst d0 !! j = Some h ->
          value_at ws (6 + rows_used pre + 2 + i) (j + 1) = Some (cell_of d h))
    /\ (forall i c, i < length (d0 :: ds) -> length d0 < c ->
          value_at ws (6 + rows_used pre + 2 + i) c = None)
    /\ (forall c, value_at ws (6 + rows_used pre + 2 + length (d0 :: ds)) c = None).
Proof.
  destruct (excel_sheet_entry e prompt pre k (VList (map VDict (d0 :: ds))) post)
    as (ws1 & ws2 & ws & E & E2 & Hblank & Hsame).
  destruct (excel_entry_table ws1 (6 + rows_used pre) k d0 ds) as (ws2' & E2' & Hw).
  assert (ws2' = ws2) as -> by congruence.
  assert (Hh : 6 + rows_used pre + entry_height (VList (map VDict (d0 :: ds)))
               = 6 + rows_used pre + (length (d0 :: ds) + 3)) by congruence.
  clear E2 E2'. set (row := 6 + rows_used pre) in *. cbn [length] in *.
  exists ws. split; [exact E|].
  assert (Hcell : forall r c, row <= r < row + (S (length ds) + 3) ->
                    value_at ws r c
                    = if decide ((r, c) = (row, 1%nat)) then Some (PyStr.title k)
                      else if decide (r = S row /\ 1 <= c < 1 + length d0)
                      then map fst d0 !! (c - 1)
                      else if decide (S (S row) <= r < S (S row) + S (length ds)
                                      /\ 1 <= c < 1 + length d0)
                      then map (fun d => map (cell_of d) (map fst d0)) (d0 :: ds)
                             !! (r - S (S row))
                           ≫= (fun vals => vals !! (c - 1))
                      else None).
  { intros r c Hr. rewrite Hsame, Hw by lia.
    repeat case_decide; try done. apply Hblank. lia. }
  clear Hw Hsame Hblank. repeat split.
  - rewrite Hcell by lia. by rewrite decide_True.
  - intros j h Hj. pose proof (lookup_lt_Some _ _ _ Hj) as Hlt.
    rewrite length_map in Hlt. rewrite Hcell by lia.
    destruct (decide ((row + 1, j + 1) = (row, 1%nat))) as [Eq|_]; [inversion Eq; lia|].
    rewrite decide_True by lia. by replace (j + 1 - 1) with j by lia.
  - intros c Hc. rewrite Hcell by lia.
    destruct (decide ((row + 1, c) = (row, 1%nat))) as [Eq|_]; [inversion Eq; lia|].
    rewrite !decide_False by lia. reflexivity.
  - intros i d j h Hi Hj. pose proof (lookup_lt_Some _ _ _ Hi) as Hlti.
    pose proof (lookup_lt_Some _ _ _ Hj) as Hltj.
    rewrite length_map in Hltj. cbn [length] in Hlti. rewrite Hcell by lia.
    destruct (decide ((row + 2 + i, j + 1) = (row, 1%nat))) as [Eq|_]; [inversion Eq; lia|].
    rewrite decide_False by lia. rewrite decide_True by lia.
    replace (row + 2 + i - S (S row)) with i by lia.
    replace (j + 1 - 1) with j by lia.
    rewrite list_lookup_fmap, Hi. cbn. rewrite list_lookup_fmap, Hj. reflexivity.
  - intros i c Hi Hc. rewrite Hcell by lia.
    destruct (decide ((row + 2 + i, c) = (row, 1%nat))) as [Eq|_]; [inversion Eq; lia|].
    rewrite !decide_False by lia. reflexivity.
  - intros c. rewrite Hcell by lia.
    destruct (decide ((row + 2 + S (length ds), c) = (row, 1%nat))) as [Eq|_];
      [inversion Eq; lia|].
    rewrite !decide_False by lia. reflexivity.
Qed.

(** *** Tables in the PDF and Excel documents *)

(** C1, as the code has it.  For a dict with a key whose value is a
    non-empty list of dicts, the grid is the keys of the first dict, in
    their order, then one row per dict with [str(item.get(header, ''))]
    for each header: it is in the sheet for every such key, and it is
    the table of the PDF story for the first such key, when the first
    dict has a key and the library reads the paragraphs before the
    table.  The scenario with ["items"] gives the header [name, price]
    and the rows [A, 1] and [B, 2]. *)
Theorem table_header_and_rows (lib : library) (e : env) (prompt : string) (pre : dict)
    (k : string) (d0 : dict) (ds : list dict) (post : dict) :
  let data := VDict (pre ++ (k, VList (map VDict (d0 :: ds))) :: post) in
  let header := map fst d0 in
  let grid := header :: map (fun d => map (cell_of d) header) (d0 :: ds) in
  (any_table pre = false -> _dict_to_table_data data = Ok grid)
  /\ (any_table pre = false -> d0 <> [] -> preamble_accepted lib e prompt ->
      pdf_story lib e data prompt = Ok (pdf_preamble e prompt ++ [Table grid]))
  /\ (exists ws,
        excel_sheet e data prompt = Ok ws
        /\ (forall j h, header !! j = Some h ->
              value_at ws (6 + rows_used pre + 1) (j + 1) = Some h)
        /\ (forall c, length header < c -> value_at ws (6 + rows_used pre + 1) c = None)
        /\ (forall i d j h,
              (d0 :: ds) !! i = Some d -> header !! j = Some h ->
              value_at ws (6 + rows_used pre + 2 + i) (j + 1) = Some (cell_of d h))
        /\ (forall i c, i < length (d0 :: ds) -> length header < c ->
              value_at ws (6 + rows_used pre + 2 + i) c = None)
        /\ (forall c, value_at ws (6 + rows_used pre + 2 + length (d0 :: ds)) c = None))
  /\ (preamble_accepted lib e prompt ->
      pdf_story lib e items_example prompt
      = Ok (pdf_preamble e prompt ++ [Table [["name"; "price"]; ["A"; "1"]; ["B"; "2"]]]))
  /\ (exists ws,
        excel_sheet e items_example prompt = Ok ws
        /\ value_at ws 7 1 = Some "name" /\ value_at ws 7 2 = Some "price"
        /\ value_at ws 8 1 = Some "A" /\ value_at ws 8 2 = Some "1"
        /\ value_at ws 9 1 = Some "B" /\ value_at ws 9 2 = Some "2").
Proof.
  intros data header grid. split; [|split; [|split; [|split]]].
  - intros Hpre. by apply dict_to_table_first.
  - intros Hpre Hd0 Hacc. subst data. rewrite pdf_story_first by done.
    by destruct d0.
  - destruct (excel_table_cells e prompt pre k d0 ds post)
      as (ws & E & _ & Hh & Hh' & Hr & Hr' & Hb).
    exists ws. subst header. rewrite length_map. auto 10.
  - intros Hacc.
    exact (pdf_story_first lib e prompt [] "items"
             [("name", VStr "A"); ("price", VInt 1)]
             [[("name", VStr "B"); ("price", VInt 2)]] [] eq_refl Hacc).
  - destruct (excel_table_cells e prompt [] "items"
                [("name", VStr "A"); ("price", VInt 1)]
                [[("name", VStr "B"); ("price", VInt 2)]] [])
      as (ws & E & _ & Hh & _ & Hr & _).
    exists ws. split; [exact E|].
    repeat split.
    + exact (Hh 0%nat "name" eq_refl).
    + exact (Hh 1%nat "price" eq_refl).
    + exact (Hr 0%nat _ 0%nat "name" eq_refl eq_refl).
    + exact (Hr 0%nat _ 1%nat "price" eq_refl eq_refl).
    + exact (Hr 1%nat _ 0%nat "name" eq_refl eq_refl).
    + exact (Hr 1%nat _ 1%nat "price" eq_refl eq_refl).
Qed.

Lemma table_header_and_rows_witness :
  pdf_story permissive sample_env
    (VDict ([("title", VStr "Shop"); ("tags", VList [VStr "a"])]
            ++ ("items", VList (map VDict [[("name", VStr "A"); ("price", VInt 1)];
                                           [("price", VInt 2)]]))
               :: [("more", VList [VDict [("x", VNone)]])]))
    "list the items"
  = Ok (pdf_preamble sample_env "list the items"
        ++ [Table [["name"; "price"]; ["A"; "1"]; [""; "2"]]]).
Proof.
  apply (proj1 (proj2 (table_header_and_rows permissive sample_env "list the items"
                         [("title", VStr "Shop"); ("tags", VList [VStr "a"])] "items"
                         [("name", VStr "A"); ("price", VInt 1)] [[("price", VInt 2)]]
                         [("more", VList [VDict [("x", VNone)]])]))).
  - reflexivity.
  - discriminate.
  - repeat constructor.
Defined.

(** C1 as stated fails for the PDF.  The first dict of [{"x": [{}]}] has
    no key: the grid is an empty header and an empty row, [Table]
    refuses it, and no PDF is written, while the sheet is. *)
Lemma table_without_column_not_rendered :
  _is_tabular_data no_column_example = true
  /\ _dict_to_table_data no_column_example = Ok [[]; []]
  /\ (exists msg,
        pdf_story permissive sample_env no_column_example "list the items"
        = Raise (ValueError msg)
        /\ generate_output permissive sample_env no_column_example "pdf" "list the items"
             (mkState ∅ [])
           = (Raise (ValueError msg),
              mkState ∅ [LogError ("Error generating pdf output: " +:+ msg)]))
  /\ exists ws, excel_sheet sample_env no_column_example "list the items" = Ok ws.
Proof.
  split; [reflexivity|]. split; [reflexivity|]. split.
  - eexists. split; reflexivity.
  - eexists. reflexivity.
Qed.

(** C2, as the code has it.  When a dict of a table lacks a header key,
    its cell is the empty string in the sheet, and in the table of the
    PDF when the key of the table is the first one with a list of dicts;
    nothing is raised for the missing key, and [generate_output] returns
    with that table or sheet saved when the library raises nothing on
    the document. *)
Theorem missing_key_renders_empty (lib : library) (e : env) (prompt : string) (st : state)
    (pre : dict) (k : string) (d0 : dict) (ds : list dict) (post : dict)
    (i : nat) (d : dict) (j : nat) (h : string) :
  let data := VDict (pre ++ (k, VList (map VDict (d0 :: ds))) :: post) in
  (d0 :: ds) !! i = Some d ->
  map fst d0 !! j = Some h ->
  h ∉ map fst d ->
  (any_table pre = false ->
   exists grid row,
     _dict_to_table_data data = Ok grid
     /\ grid !! S i = Some row /\ row !! j = Some ""
     /\ (preamble_accepted lib e prompt ->
         pdf_story lib e data prompt = Ok (pdf_preamble e prompt ++ [Table grid]))
     /\ (preamble_accepted lib e prompt ->
         build_error lib (pdf_preamble e prompt ++ [Table grid]) = None ->
         generate_output lib e data "pdf" prompt st
         = (Ok (output_name e ".pdf", filepath_of (output_name e ".pdf")),
            saved e st (output_name e ".pdf")
                  (PdfFile (pdf_preamble e prompt ++ [Table grid]))
                  ("Generated PDF document: " +:+ output_name e ".pdf"))))
  /\ (exists ws,
        excel_sheet e data prompt = Ok ws
        /\ value_at ws (6 + rows_used pre + 2 + i) (j + 1) = Some ""
        /\ (openpyxl_error lib ws = None ->
            generate_output lib e data "excel" prompt st
            = (Ok (output_name e ".xlsx", filepath_of (output_name e ".xlsx")),
               saved e st (output_name e ".xlsx") (ExcelFile ws)
                     ("Generated Excel file: " +:+ output_name e ".xlsx")))).
Proof.
  intros data Hi Hj Hmiss. split.
  - intros Hpre. exists (grid_of d0 ds), (map (cell_of d) (map fst d0)).
    assert (Hstory : preamble_accepted lib e prompt ->
              pdf_story lib e data prompt
              = Ok (pdf_preamble e prompt ++ [Table (grid_of d0 ds)])).
    { intros Hacc. subst data. rewrite pdf_story_first by done.
      destruct d0; [|reflexivity]. by destruct j. }
    split; [by apply dict_to_table_first|].
    unfold grid_of at 1. split; [|split; [|split]].
    + change (map (fun d1 => map (cell_of d1) (map fst d0)) (d0 :: ds) !! i
              = Some (map (cell_of d) (map fst d0))).
      exact (lookup_map_Some (fun d1 => map (cell_of d1) (map fst d0)) _ _ _ Hi).
    + rewrite (lookup_map_Some _ _ _ _ Hj). by rewrite cell_of_missing.
    + exact Hstory.
    + intros Hacc Hbuild. rewrite generate_output_rendered.
      unfold rendered. cbn [String.eqb Ascii.eqb Bool.eqb].
      rewrite (Hstory Hacc). unbind. rewrite Hbuild. reflexivity.
  - destruct (excel_table_cells e prompt pre k d0 ds post)
      as (ws & E & _ & _ & _ & Hr & _).
    exists ws. split; [exact E|]. split.
    + rewrite (Hr i d j h Hi Hj). by rewrite cell_of_missing.
    + intros Hlib. subst data. rewrite generate_output_rendered.
      unfold rendered. cbn [String.eqb Ascii.eqb Bool.eqb].
      rewrite E. unbind. rewrite Hlib. reflexivity.
Qed.

Lemma missing_key_renders_empty_witness :
  generate_output permissive sample_env
    (VDict ([] ++ ("items", VList (map VDict [[("name", VStr "A"); ("price", VInt 1)];
                                              [("price", VInt 2)]])) :: []))
    "pdf" "list the items" (mkState ∅ [])
  = (Ok (output_name sample_env ".pdf", filepath_of (output_name sample_env ".pdf")),
     saved sample_env (mkState ∅ []) (output_name sample_env ".pdf")
           (PdfFile (pdf_preamble sample_env "list the items"
                     ++ [Table [["name"; "price"]; ["A"; "1"]; [""; "2"]]]))
           ("Generated PDF document: " +:+ output_name sample_env ".pdf"))
  /\ exists ws,
       excel_sheet sample_env
         (VDict ([] ++ ("items", VList (map VDict [[("name", VStr "A"); ("price", VInt 1)];
                                                   [("price", VInt 2)]])) :: []))
         "list the items" = Ok ws
       /\ value_at ws (6 + rows_used [] + 2 + 1) (0 + 1) = Some ""
       /\ generate_output permissive sample_env
            (VDict ([] ++ ("items", VList (map VDict [[("name", VStr "A"); ("price", VInt 1)];
                                                      [("price", VInt 2)]])) :: []))
            "excel" "list the items" (mkState ∅ [])
          = (Ok (output_name sample_env ".xlsx", filepath_of (output_name sample_env ".xlsx")),
             saved sample_env (mkState ∅ []) (output_name sample_env ".xlsx") (ExcelFile ws)
                   ("Generated Excel file: " +:+ output_name sample_env ".xlsx")).
Proof.
  destruct (missing_key_renders_empty permissive sample_env "list the items"
              (mkState ∅ []) [] "items"
              [("name", VStr "A"); ("price", VInt 1)] [[("price", VInt 2)]]
              [] 1 [("price", VInt 2)] 0 "name") as [Hpdf Hxl].
  - reflexivity.
  - reflexivity.
  - vm_compute. intros H. inversion H as [|? ? ? H']; subst. inversion H'.
  - split.
    + destruct (Hpdf eq_refl) as (grid & row & Hg & _ & _ & _ & Hgen).
      injection Hg as <-. apply Hgen; [repeat constructor|reflexivity].
    + destruct Hxl as (ws & E & Hv & Hgen). exists ws.
      split; [exact E|]. split; [exact Hv|]. apply Hgen. reflexivity.
Defined.

(** C2 as stated fails for the PDF.  In
    [{"x": [{}], "items": [{"name": "A"}, {}]}] the second dict of
    ["items"] lacks the header ["name"]; the table of the PDF is that of
    ["x"], which has no column, and the call raises: no cell is rendered
    and no file is written. *)
Lemma missing_key_render_raises :
  _dict_to_table_data missing_key_example = Ok [[]; []]
  /\ exists msg,
       generate_output permissive sample_env missing_key_example "pdf" "list the items"
         (mkState ∅ [])
       = (Raise (ValueError msg),
          mkState ∅ [LogError ("Error generating pdf output: " +:+ msg)]).
Proof.
  split; [reflexivity|]. eexists. reflexivity.
Qed.



(** C10. A key of the sheet whose value is a dict takes one row: the
    title-cased key in column A and [str] of the whole dict in column B;
    nothing else is written on that row and the next key starts on the
    next row. *)
Theorem excel_nested_dict_one_row (e : env) (prompt : string) (pre : dict) (k : string)
    (inner : dict) (post : dict) :
  (forall ws row,
     excel_entry ws row k (VDict inner)
     = Ok (set_value (set_value ws row 1 (PyStr.title k)) row 2 (py_str (VDict inner)),
           S row))
  /\ rows_used (pre ++ [(k, VDict inner)]) = rows_used pre + 1
  /\ exists ws,
       excel_sheet e (VDict (pre ++ (k, VDict inner) :: post)) prompt = Ok ws
       /\ value_at ws (6 + rows_used pre) 1 = Some (PyStr.title k)
       /\ value_at ws (6 + rows_used pre) 2 = Some (py_str (VDict inner))
       /\ forall c, c <> 1%nat -> c <> 2%nat -> value_at ws (6 + rows_used pre) c = None.
Proof.
  split; [reflexivity|]. split.
  { rewrite rows_used_app. cbn. lia. }
  destruct (excel_sheet_entry e prompt pre k (VDict inner) post)
    as (ws1 & ws2 & ws & E & E2 & Hblank & Hsame).
  exists ws. split; [exact E|].
  cbn in E2. injection E2 as <-.
  assert (Hrow : forall c, value_at ws (6 + rows_used pre) c
                           = if decide (c = 2%nat) then Some (py_str (VDict inner))
                             else if decide (c = 1%nat) then Some (PyStr.title k)
                             else None).
  { intros c. rewrite Hsame by (cbn; lia). rewrite !value_at_set_value.
    repeat case_decide; simplify_eq; try done. apply Hblank. lia. }
  repeat split.
  - by rewrite Hrow.
  - by rewrite Hrow.
  - intros c H1 H2. rewrite Hrow. by rewrite !decide_False.
Qed.

Lemma excel_nested_dict_one_row_witness :
  exists ws,
    excel_sheet sample_env
      (VDict ([("title", VStr "Shop")]
              ++ ("meta", VDict [("lang", VStr "en"); ("pages", VInt 3)])
                 :: [("note", VNone)]))
      "Extract the title" = Ok ws
    /\ value_at ws 7 1 = Some "Meta"
    /\ value_at ws 7 2 = Some "{'lang': 'en', 'pages': 3}"
    /\ value_at ws 7 3 = None
    /\ value_at ws 8 1 = Some "Note".
Proof.
  destruct (excel_nested_dict_one_row sample_env "Extract the title"
              [("title", VStr "Shop")] "meta"
              [("lang", VStr "en"); ("pages", VInt 3)] [("note", VNone)])
    as (_ & _ & ws & E & HA & HB & Hrest).
  exists ws. split; [exact E|]. split; [exact HA|]. split; [exact HB|].
  split; [apply (Hrest 3%nat); lia|].
  vm_compute in E. injection E as <-. vm_compute. reflexivity.
Defined.

(** *** The text renderer *)

Lemma text_lines_cons (key : string) (value : pyobj) (rest : dict) (indent : nat) :
  _format_dict_for_text ((key, value) :: rest) indent
  = text_entry key value indent ++ _format_dict_for_text rest indent.
Proof. destruct value; reflexivity. Qed.

Lemma text_lines_app (pre post : dict) (indent : nat) :
  _format_dict_for_text (pre ++ post) indent
  = _format_dict_for_text pre indent ++ _format_dict_for_text post indent.
Proof.
  induction pre as [|[k v] pre IH]; [done|].
  cbn [app]. rewrite !text_lines_cons, IH. by rewrite app_assoc.
Qed.

(** C3, as the code has it.  A key whose value is a dict or a list is
    written uppercased, as the label [KEY:] of its block; a key with a
    scalar value is written as it is, on the line [key: value].  The
    scenario gives the lines [title: Test Page] and
    [content: Test content] after the banner [EXTRACTED DATA:]. *)
Theorem text_key_labels (pre : dict) (key : string) (value : pyobj) (post : dict)
    (indent : nat) :
  (exists block,
     _format_dict_for_text (pre ++ (key, value) :: post) indent
     = _format_dict_for_text pre indent ++ block ++ _format_dict_for_text post indent
     /\ match value with
        | VDict _ | VList _ =>
            exists tail, block = (PyStr.repeat "  " indent +:+ PyStr.upper key +:+ ":") :: tail
        | _ => block = [PyStr.repeat "  " indent +:+ key +:+ ": " +:+ py_str value]
        end)
  /\ forall e prompt,
       text_content e page_example prompt
       = [PyStr.repeat "=" 50; "WEB SCRAPING RESULTS"; PyStr.repeat "=" 50; "";
          "Generated: " +:+ now_readable e; "Prompt: " +:+ prompt; "";
          "EXTRACTED DATA:"; PyStr.repeat "-" 20; "";
          "title: Test Page"; "content: Test content"].
Proof.
  split; [|reflexivity].
  exists (text_entry key value indent). split.
  - by rewrite text_lines_app, text_lines_cons.
  - destruct value; try reflexivity; eexists; reflexivity.
Qed.

(** C3 as stated fails: the scenario has no line [TITLE: Test Page]; the
    key of a scalar is not uppercased. *)
Lemma text_scalar_key_kept :
  ("TITLE: Test Page" ∉ text_content sample_env page_example "Extract the title")
  /\ ("CONTENT: Test content" ∉ text_content sample_env page_example "Extract the title")
  /\ ("title: Test Page" ∈ text_content sample_env page_example "Extract the title").
Proof.
  repeat split; apply (bool_decide_unpack _); vm_compute; reflexivity.
Qed.

(** *** The dispatcher *)

(** C4. For a format that is none of [text], [word], [pdf] and [excel],
    [generate_output] raises [ValueError] ("Unsupported format") and the
    directory is as before; only the error is logged. *)
Theorem unsupported_format_rejected (lib : library) (e : env) (data : pyobj)
    (format_type prompt : string) (st : state) :
  ~ supported format_type ->
  generate_output lib e data format_type prompt st
  = (Raise (ValueError ("Unsupported format: " +:+ format_type)),
     mkState (output_dir st)
             (log st ++ [LogError ("Error generating " +:+ format_type
                                   +:+ " output: Unsupported format: " +:+ format_type)])).
Proof.
  intros Hn. unfold supported in Hn. unfold generate_output, try_except.
  destruct (String.eqb_spec format_type "word"); [tauto|].
  destruct (String.eqb_spec format_type "pdf"); [tauto|].
  destruct (String.eqb_spec format_type "excel"); [tauto|].
  destruct (String.eqb_spec format_type "text"); [tauto|].
  reflexivity.
Qed.

Lemma unsupported_format_rejected_witness :
  generate_output permissive sample_env page_example "csv" "Extract the title" (mkState ∅ [])
  = (Raise (ValueError "Unsupported format: csv"),
     mkState ∅ [LogError "Error generating csv output: Unsupported format: csv"]).
Proof.
  apply (unsupported_format_rejected permissive sample_env page_example "csv"
           "Extract the title" (mkState ∅ [])).
  unfold supported. intros [H|[H|[H|H]]]; discriminate H.
Defined.

(** *** The media type of a download *)

Lemma lower_suffix_cases (ext : string) :
  str_get media_type_map ext "application/octet-stream"
  = if decide (ext = ".docx")
    then "application/vnd.openxmlformats-officedocument.wordprocessingml.document"
    else if decide (ext = ".pdf") then "application/pdf"
    else if decide (ext = ".xlsx")
    then "application/vnd.openxmlformats-officedocument.spreadsheetml.sheet"
    else if decide (ext = ".txt") then "text/plain"
    else "application/octet-stream".
Proof.
  unfold media_type_map. cbn [str_get].
  repeat (case_decide; [subst; reflexivity|]).
  rewrite !(proj2 (String.eqb_neq _ _)) by congruence. reflexivity.
Qed.

(** C8, as the code has it.  The media type depends on the suffix of the
    file name alone, and the suffix is compared in lower case: [.docx],
    [.pdf], [.xlsx] and [.txt] give their types, any other suffix
    [application/octet-stream]; the response of [download_file] for a
    file that exists carries that type. *)
Theorem media_type_by_lowercased_suffix (filename : string) :
  let ext := PyStr.lower (suffix filename) in
  (forall other, suffix other = suffix filename -> media_type_of other = media_type_of filename)
  /\ (ext = ".docx" ->
      media_type_of filename
      = "application/vnd.openxmlformats-officedocument.wordprocessingml.document")
  /\ (ext = ".pdf" -> media_type_of filename = "application/pdf")
  /\ (ext = ".xlsx" ->
      media_type_of filename
      = "application/vnd.openxmlformats-officedocument.spreadsheetml.sheet")
  /\ (ext = ".txt" -> media_type_of filename = "text/plain")
  /\ (ext ∉ known_extensions -> media_type_of filename = "application/octet-stream")
  /\ (forall elsewhere st,
        is_Some (output_dir st !! filename) ->
        download_file elsewhere filename st
        = (Ok (mkResponse (filepath_of filename) filename (media_type_of filename)),
           mkState (output_dir st)
                   (log st ++ [LogInfo ("Serving file for download: " +:+ filename)]))).
Proof.
  intros ext. unfold media_type_of. fold ext. rewrite lower_suffix_cases.
  split; [|split; [|split; [|split; [|split; [|split]]]]].
  - intros other ->. fold ext. by rewrite lower_suffix_cases.
  - intros ->. reflexivity.
  - intros ->. reflexivity.
  - intros ->. reflexivity.
  - intros ->. reflexivity.
  - intros Hn. unfold known_extensions in Hn.
    repeat (case_decide; [exfalso; apply Hn; subst; set_solver|]). reflexivity.
  - intros elsewhere st [f Hf].
    unfold download_file, try_except, mbind, M_bind, bindM, joinpath, lift.
    rewrite Hf. cbn [path_exists path_suffix path_str negb].
    unfold logger_info, ret. fold ext.
    by rewrite lower_suffix_cases.
Qed.

Lemma media_type_by_lowercased_suffix_witness :
  media_type_of "scrape_result_20240101_120000_abcd1234.PDF" = "application/pdf"
  /\ media_type_of "notes.csv" = "application/octet-stream".
Proof.
  split.
  - apply (proj1 (proj2 (proj2 (media_type_by_lowercased_suffix
                                  "scrape_result_20240101_120000_abcd1234.PDF")))).
    reflexivity.
  - apply (proj1 (proj2 (proj2 (proj2 (proj2 (proj2 (media_type_by_lowercased_suffix
                                                        "notes.csv"))))))).
    apply (bool_decide_unpack _). vm_compute. reflexivity.
Defined.

(** C8 as stated fails: the suffix [.PDF] is none of the four of the
    table, and its media type is not [application/octet-stream]. *)
Lemma uppercase_suffix_is_known :
  suffix "report.PDF" = ".PDF"
  /\ (".PDF" ∉ known_extensions)
  /\ media_type_of "report.PDF" = "application/pdf"
  /\ media_type_of "report.PDF" <> "application/octet-stream".
Proof.
  split; [reflexivity|]. split; [|split; [reflexivity|discriminate]].
  apply (bool_decide_unpack _). vm_compute. reflexivity.
Qed.

(** *** The sweep *)

Lemma expired_true (days : Z) (age : Q) :
  expired days age = true <-> (inject_Z (days * 86400) < age)%Q.
Proof.
  unfold expired. replace (days * 24 * 3600)%Z with (days * 86400)%Z by lia.
  destruct (Qlt_le_dec (inject_Z (days * 86400)) age) as [H|H]; split; try done.
  intros H'. exfalso. exact (Qlt_not_le _ _ H' H).
Qed.

Lemma expired_false (days : Z) (age : Q) :
  (age <= inject_Z (days * 86400))%Q -> expired days age = false.
Proof.
  intros H. destruct (expired days age) eqn:E; [|done].
  apply expired_true in E. exfalso. exact (Qlt_not_le _ _ E H).
Qed.

Lemma old_file_expired (e : env) (days : Z) (f : file) :
  old_file e days f <-> expired_file (time_time e) days f = true.
Proof.
  unfold old_file, expired_file. split.
  - intros (-> & mtime & -> & H). by apply expired_true.
  - intros H. apply andb_true_iff in H as [Hf H]. split; [done|].
    destruct (f_mtime f) as [mtime|]; [|discriminate].
    exists mtime. split; [done|]. by apply expired_true.
Qed.

(** One turn of the loop. *)
Lemma sweep_cons (now : Q) (days : Z) (name : string) (f : file)
    (rest : list (string * file)) (st : state) :
  sweep now days ((name, f) :: rest) st
  = if expired_file now days f then
      match f_unlink_error f with
      | Some ex => (Raise ex, st)
      | None =>
          sweep now days rest
            (mkState (delete name (output_dir st))
                     (log st ++ [LogInfo ("Cleaned up old file: " +:+ name)]))
      end
    else if f_is_file f then
      match f_mtime f with
      | Ok _ => sweep now days rest st
      | Raise ex => (Raise ex, st)
      end
    else sweep now days rest st.
Proof.
  cbn [sweep]. unfold expired_file, mbind, M_bind, bindM, lift, unlink, logger_info, ret.
  destruct (f_is_file f); cbn [andb]; [|reflexivity].
  destruct (f_mtime f) as [mtime|ex]; [|reflexivity].
  destruct (expired days (now - mtime)); [|reflexivity].
  destruct (f_unlink_error f); reflexivity.
Qed.

(** Whatever happens, the sweep only removes entries that it has listed
    and found expired. *)
Lemma sweep_only_removes (now : Q) (days : Z) (listing : list (string * file))
    (st : state) (name : string) :
  output_dir (sweep now days listing st).2 !! name = output_dir st !! name
  \/ (output_dir (sweep now days listing st).2 !! name = None
      /\ exists f, (name, f) ∈ listing /\ expired_file now days f = true).
Proof.
  revert st. induction listing as [|[n f] rest IH]; intros st; [by left|].
  rewrite sweep_cons. destruct (expired_file now days f) eqn:Hex.
  - destruct (f_unlink_error f); [by left|].
    destruct (IH (mkState (delete n (output_dir st))
                          (log st ++ [LogInfo ("Cleaned up old file: " +:+ n)])))
      as [H|(H & f' & Hin & Hf')].
    + cbn [output_dir] in H. destruct (decide (n = name)) as [->|Hne].
      * right. rewrite H, lookup_delete_eq. split; [done|].
        exists f. split; [left|done].
      * left. by rewrite H, lookup_delete_ne.
    + right. split; [done|]. exists f'. split; [by right|done].
  - assert (Hrest : output_dir (sweep now days rest st).2 !! name = output_dir st !! name
                    \/ (output_dir (sweep now days rest st).2 !! name = None
                        /\ exists f0, (name, f0) ∈ (n, f) :: rest
                                      /\ expired_file now days f0 = true)).
    { destruct (IH st) as [H|(H & f' & Hin & Hf')]; [by left|].
      right. split; [done|]. exists f'. split; [by right|done]. }
    destruct (f_is_file f); [|exact Hrest].
    destruct (f_mtime f); [exact Hrest|by left].
Qed.

(** When no call raises, the sweep returns and every expired entry that
    it has listed is gone. *)
Lemma sweep_removes_expired (now : Q) (days : Z) (listing : list (string * file))
    (st : state) :
  (forall name f, (name, f) ∈ listing -> f_is_file f = true ->
                  f_unlink_error f = None /\ exists mtime, f_mtime f = Ok mtime) ->
  (sweep now days listing st).1 = Ok tt
  /\ forall name f, (name, f) ∈ listing -> expired_file now days f = true ->
                    output_dir (sweep now days listing st).2 !! name = None.
Proof.
  revert st. induction listing as [|[n f] rest IH]; intros st Hok.
  - split; [done|]. intros name f Hin. by apply elem_of_nil in Hin.
  - assert (Hrest : forall name f0, (name, f0) ∈ rest -> f_is_file f0 = true ->
                      f_unlink_error f0 = None /\ exists mtime, f_mtime f0 = Ok mtime).
    { intros name f0 Hin. apply (Hok name). by right. }
    rewrite sweep_cons. destruct (expired_file now days f) eqn:Hex.
    + assert (Hfile : f_is_file f = true).
      { unfold expired_file in Hex. by apply andb_true_iff in Hex as [? _]. }
      destruct (Hok n f (list_elem_of_here _ _) Hfile) as [-> _].
      set (st1 := mkState _ _).
      destruct (IH st1 Hrest) as [Hr Hgone]. split; [done|].
      intros name f0 Hin Hf0. apply elem_of_cons in Hin as [Heq|Hin]; [|by eauto].
      injection Heq as -> ->.
      destruct (sweep_only_removes now days rest st1 n) as [H|[H _]]; [|done].
      rewrite H. unfold st1. cbn [output_dir]. apply lookup_delete_eq.
    + assert (Hgo : (sweep now days rest st).1 = Ok tt
                    /\ forall name f0, (name, f0) ∈ (n, f) :: rest ->
                         expired_file now days f0 = true ->
                         output_dir (sweep now days rest st).2 !! name = None).
      { destruct (IH st Hrest) as [Hr Hgone]. split; [done|].
        intros name f0 Hin Hf0. apply elem_of_cons in Hin as [Heq|Hin]; [|by eauto].
        injection Heq as -> ->. congruence. }
      destruct (f_is_file f) eqn:Hfile; [|exact Hgo].
      destruct (Hok n f (list_elem_of_here _ _) Hfile) as [_ [mtime ->]]. exact Hgo.
Qed.

Lemma cleanup_returns (e : env) (days : Z) (st : state) :
  let body := sweep (time_time e) days (map_to_list (output_dir st)) st in
  cleanup_old_files e days st
  = (Ok tt,
     match body.1 with
     | Ok _ => body.2
     | Raise ex =>
         mkState (output_dir body.2)
                 (log body.2 ++ [LogError ("Error cleaning up files: " +:+ exn_str ex)])
     end).
Proof.
  intros body. unfold cleanup_old_files, try_except. fold body.
  destruct body as [[[]|ex] st']; reflexivity.
Qed.

Lemma cleanup_output_dir (e : env) (days : Z) (st : state) :
  output_dir (cleanup_old_files e days st).2
  = output_dir (sweep (time_time e) days (map_to_list (output_dir st)) st).2.
Proof.
  rewrite cleanup_returns. cbn [snd].
  by destruct (sweep (time_time e) days (map_to_list (output_dir st)) st).1.
Qed.




(** C7. [cleanup_old_files] returns in every state of the directory: an
    exception of the sweep is caught, and its text is logged as an
    error. *)
Theorem cleanup_never_raises (e : env) (days : Z) (st : state) :
  exists st',
    cleanup_old_files e days st = (Ok tt, st')
    /\ forall ex st1,
         sweep (time_time e) days (map_to_list (output_dir st)) st = (Raise ex, st1) ->
         st' = mkState (output_dir st1)
                       (log st1 ++ [LogError ("Error cleaning up files: " +:+ exn_str ex)]).
Proof.
  eexists. split; [apply cleanup_returns|].
  intros ex st1 E. rewrite E. reflexivity.
Qed.

Lemma cleanup_never_raises_witness :
  exists st',
    cleanup_old_files sample_env 7
      (mkState {["locked.txt" := mkFile true (Ok (1703000000 # 1)%Q)
                                        (Some (OSError "Permission denied")) None]} [])
    = (Ok tt, st')
    /\ log st' = [LogError "Error cleaning up files: Permission denied"]
    /\ is_Some (output_dir st' !! "locked.txt").
Proof.
  destruct (cleanup_never_raises sample_env 7
              (mkState {["locked.txt" := mkFile true (Ok (1703000000 # 1)%Q)
                                                (Some (OSError "Permission denied")) None]} []))
    as (st' & E & Hlog).
  exists st'. split; [exact E|].
  rewrite (Hlog (OSError "Permission denied")
             (mkState {["locked.txt" := mkFile true (Ok (1703000000 # 1)%Q)
                                               (Some (OSError "Permission denied")) None]} []))
    by (vm_compute; reflexivity).
  split; [reflexivity|]. vm_compute. by eexists.
Defined.

(** *** The widths of the columns *)

Lemma longest_spec (ws : worksheet) (col : nat) (rows : list nat) (m : nat) :
  let L := longest ws col rows m in
  m <= L
  /\ (forall row, row ∈ rows -> PyStr.len (cell_text ws row col) <= L)
  /\ (L = m \/ exists row, row ∈ rows /\ L = PyStr.len (cell_text ws row col)).
Proof.
  revert m. induction rows as [|row rows IH]; intros m; cbn [longest].
  - split; [done|]. split; [|by left]. intros row Hin. by apply elem_of_nil in Hin.
  - set (n := PyStr.len (cell_text ws row col)).
    destruct (IH (if (m <? n)%nat then n else m)) as (Hge & Hall & Hatt).
    destruct (Nat.ltb_spec m n) as [Hlt|Hle].
    + split; [lia|]. split.
      * intros r Hin. apply elem_of_cons in Hin as [->|Hin]; [exact Hge|by apply Hall].
      * right. destruct Hatt as [->|(r & Hin & ->)].
        -- exists row. split; [left|done].
        -- exists r. split; [by right|done].
    + split; [lia|]. split.
      * intros r Hin. apply elem_of_cons in Hin as [->|Hin]; [fold n; lia|by apply Hall].
      * destruct Hatt as [->|(r & Hin & ->)]; [by left|].
        right. exists r. split; [by right|done].
Qed.

Lemma adjust_columns_width (ws0 : worksheet) (cols : list nat) (ws : worksheet) (c : nat) :
  column_width (adjust_columns ws0 ws cols) !! c
  = if decide (c ∈ cols)
    then Some (Nat.min (longest ws0 c (seq 1 (max_row ws0)) 0 + 2) 50)
    else column_width ws !! c.
Proof.
  revert ws. induction cols as [|col cols IH]; intros ws; cbn [adjust_columns].
  - rewrite decide_False; [done|]. apply not_elem_of_nil.
  - rewrite IH. destruct (decide (c ∈ cols)) as [Hin|Hn].
    + rewrite decide_True; [done|by right].
    + unfold set_width. cbn [column_width]. destruct (decide (c = col)) as [->|Hne].
      * rewrite decide_True by left. by rewrite lookup_insert_eq.
      * rewrite decide_False; [by rewrite lookup_insert_ne|].
        intros Hin. apply elem_of_cons in Hin as [?|?]; done.
Qed.

Lemma value_at_Some_cell (ws : worksheet) (r c : nat) (v : string) :
  value_at ws r c = Some v -> is_Some (cells ws !! (r, c)).
Proof.
  unfold value_at, get_cell. destruct (cells ws !! (r, c)); [by eexists|discriminate].
Qed.

Lemma max_row_ge (ws : worksheet) (r c : nat) (v : string) :
  value_at ws r c = Some v -> r <= max_row ws.
Proof.
  intros H. apply value_at_Some_cell in H as [x Hx]. unfold max_row.
  destruct (decide (cells ws = ∅)) as [E|_]; [by rewrite E, lookup_empty in Hx|].
  apply max_list_elem_of_le. apply list_elem_of_fmap.
  exists ((r, c), x). split; [done|]. by apply elem_of_map_to_list.
Qed.

(** C9, as the code has it.  In the sheet [_generate_excel] saves, the
    width of every column is the length of the longest [str(cell.value)]
    among its cells in the rows 1 to [max_row], plus 2, capped at 50. *)
Theorem column_width_longest_plus_two (e : env) (data : pyobj) (prompt : string) :
  exists ws,
    excel_sheet e data prompt = Ok ws
    /\ forall c,
         1 <= c <= max_column ws ->
         exists L,
           column_width ws !! c = Some (Nat.min (L + 2) 50)
           /\ (forall r, 1 <= r <= max_row ws -> PyStr.len (cell_text ws r c) <= L)
           /\ (exists r, 1 <= r <= max_row ws /\ PyStr.len (cell_text ws r c) = L).
Proof.
  unfold excel_sheet. destruct (excel_cells_total e data prompt) as (ws & -> & Hpre).
  exists (auto_adjust ws). split; [done|].
  assert (Hcells : cells (auto_adjust ws) = cells ws) by apply adjust_columns_cells.
  assert (Hmr : max_row (auto_adjust ws) = max_row ws) by (unfold max_row; by rewrite Hcells).
  assert (Hmc : max_column (auto_adjust ws) = max_column ws)
    by (unfold max_column; by rewrite Hcells).
  assert (Htext : forall r c, cell_text (auto_adjust ws) r c = cell_text ws r c)
    by (intros r c; unfold cell_text; by rewrite value_at_auto_adjust).
  assert (Hrow1 : 1 <= max_row ws).
  { apply (max_row_ge ws 1 1 "Web Scraping Results"). by rewrite Hpre by lia. }
  rewrite Hmr, Hmc. intros c Hc.
  exists (longest ws c (seq 1 (max_row ws)) 0). split; [|split].
  - unfold auto_adjust. rewrite adjust_columns_width, decide_True; [done|].
    apply elem_of_seq. lia.
  - intros r Hr. rewrite Htext.
    apply (longest_spec ws c (seq 1 (max_row ws)) 0). apply elem_of_seq. lia.
  - destruct (longest_spec ws c (seq 1 (max_row ws)) 0) as (_ & Hall & [H0|(r & Hin & Hr)]).
    + exists 1%nat. split; [lia|]. rewrite Htext.
      assert (H1 : PyStr.len (cell_text ws 1 c) <= longest ws c (seq 1 (max_row ws)) 0).
      { apply Hall. apply elem_of_seq. lia. }
      lia.
    + exists r. apply elem_of_seq in Hin. split; [lia|]. by rewrite Htext.
Qed.

Lemma column_width_longest_plus_two_witness :
  exists ws,
    excel_sheet sample_env items_example "list the items" = Ok ws
    /\ exists L,
         column_width ws !! 2%nat = Some (Nat.min (L + 2) 50)
         /\ (forall r, 1 <= r <= max_row ws -> PyStr.len (cell_text ws r 2) <= L)
         /\ (exists r, 1 <= r <= max_row ws /\ PyStr.len (cell_text ws r 2) = L).
Proof.
  destruct (column_width_longest_plus_two sample_env items_example "list the items")
    as (ws & E & H).
  exists ws. split; [exact E|]. apply H.
  vm_compute in E. injection E as <-. vm_compute. lia.
Defined.

(** C9 as stated fails: for an empty dict the longest text of column A
    has 20 characters and the width of the column is 22, not 20. *)
Lemma column_width_is_not_longest :
  exists ws,
    excel_sheet sample_env (VDict []) "Extract the title" = Ok ws
    /\ longest ws 1 (seq 1 (max_row ws)) 0 = 20%nat
    /\ column_width ws !! 1%nat = Some 22%nat
    /\ column_width ws !! 1%nat <> Some (Nat.min (longest ws 1 (seq 1 (max_row ws)) 0) 50).
Proof.
  eexists. split; [reflexivity|]. split; [by vm_compute|]. split; [by vm_compute|].
  vm_compute. discriminate.
Qed.

(** ** Further properties *)

(** *** Induction on the extracted data *)

Lemma pyobj_nested_ind (P : pyobj -> Prop) :
  P VNone -> (forall b, P (VBool b)) -> (forall n, P (VInt n)) ->
  (forall text, P (VFloat text)) -> (forall s, P (VStr s)) ->
  (forall items, Forall P items -> P (VList items)) ->
  (forall entries, Forall (fun kv => P kv.2) entries -> P (VDict entries)) ->
  forall v, P v.
Proof.
  intros Hn Hb Hi Hf Hs Hl Hd. fix IH 1.
  intros [|b|n|text|s|items|entries];
    [exact Hn|apply Hb|apply Hi|apply Hf|apply Hs| |].
  - apply Hl. induction items as [|x items IHitems]; constructor; [apply IH|exact IHitems].
  - apply Hd. induction entries as [|[k x] entries IHentries]; constructor;
      [apply IH|exact IHentries].
Qed.

(** *** The test for tabular data and the table *)

Lemma any_table_split (entries : dict) :
  any_table entries = true ->
  exists pre k d0 ds post,
    entries = pre ++ (k, VList (map VDict (d0 :: ds))) :: post /\ any_table pre = false.
Proof.
  induction entries as [|[k v] entries IH]; [discriminate|].
  rewrite any_table_candidate. destruct (table_candidate v) eqn:Hc.
  - intros _. destruct (table_candidate_inv _ Hc) as (d0 & ds & ->).
    by exists [], k, d0, ds, entries.
  - cbn [orb]. intros H. destruct (IH H) as (pre & k' & d0 & ds & post & -> & Hpre).
    exists ((k, v) :: pre), k', d0, ds, post. split; [done|].
    by rewrite any_table_candidate, Hc, Hpre.
Qed.

(** X1. [_is_tabular_data] is true exactly for a dict that has a key
    whose value is a non-empty list of dicts; an empty list, a list with
    one item that is no dict, and data that is no dict give false. *)
Theorem is_tabular_data_iff (data : pyobj) :
  _is_tabular_data data = true
  <-> exists entries k d0 ds,
        data = VDict entries /\ (k, VList (map VDict (d0 :: ds))) ∈ entries.
Proof.
  split.
  - destruct data; try discriminate. cbn [_is_tabular_data]. intros H.
    destruct (any_table_split _ H) as (pre & k & d0 & ds & post & -> & _).
    exists (pre ++ (k, VList (map VDict (d0 :: ds))) :: post), k, d0, ds.
    split; [done|]. apply elem_of_app. right. left.
  - intros (entries & k & d0 & ds & -> & Hin). cbn [_is_tabular_data].
    apply list_elem_of_split in Hin as (pre & post & ->).
    by rewrite any_table_app, any_table_candidate, table_candidate_dicts, orb_true_r.
Qed.

Lemma grid_of_rectangular (d0 : dict) (ds : list dict) :
  Forall (fun row => length row = length (map fst d0)) (grid_of d0 ds)
  /\ length (grid_of d0 ds) = S (S (length ds)).
Proof.
  unfold grid_of. split.
  - constructor; [done|]. apply Forall_forall. intros row Hin.
    apply list_elem_of_In, in_map_iff in Hin as (d & <- & _). by rewrite !length_map.
  - cbn [length map]. by rewrite length_map.
Qed.

(** X2. On a dict [_dict_to_table_data] never raises; its table is empty
    exactly when [_is_tabular_data] is false, and otherwise it has a
    header and at least one row, all of the length of the header.  On
    data that is no dict it raises [AttributeError]. *)
Theorem dict_to_table_data_shape (data : pyobj) :
  (forall entries,
     data = VDict entries ->
     exists grid,
       _dict_to_table_data data = Ok grid
       /\ (grid = [] <-> _is_tabular_data data = false)
       /\ (forall header rows,
             grid = header :: rows ->
             rows <> [] /\ Forall (fun row => length row = length header) rows))
  /\ (isinstance_dict data = false -> exists msg, _dict_to_table_data data = Raise (AttributeError msg)).
Proof.
  split.
  - intros entries ->. cbn [_is_tabular_data]. destruct (any_table entries) eqn:Hany.
    + destruct (any_table_split _ Hany) as (pre & k & d0 & ds & post & -> & Hpre).
      exists (grid_of d0 ds). split; [by apply dict_to_table_first|].
      split; [split; discriminate|].
      intros header rows E. destruct (grid_of_rectangular d0 ds) as [Hrect _].
      unfold grid_of in *. injection E as <- <-. split; [discriminate|].
      by apply Forall_cons in Hrect as [_ Hrect].
    + exists []. split; [|split; [done|discriminate]].
      unfold _dict_to_table_data. cbn [py_items]. unbind.
      clear -Hany. induction entries as [|[k v] entries IH]; [done|].
      rewrite any_table_candidate in Hany. apply orb_false_iff in Hany as [Hc Hany].
      unfold table_candidate in Hc. cbn [first_table].
      destruct (nonempty_list v); [rewrite Hc|]; by apply IH.
  - destruct data; try discriminate; intros _; by eexists.
Qed.

Lemma dict_to_table_data_shape_witness :
  exists grid,
    _dict_to_table_data items_example = Ok grid
    /\ (grid = [] <-> _is_tabular_data items_example = false)
    /\ (forall header rows,
          grid = header :: rows ->
          rows <> [] /\ Forall (fun row => length row = length header) rows).
Proof.
  apply (proj1 (dict_to_table_data_shape items_example)
           [("items", VList [VDict [("name", VStr "A"); ("price", VInt 1)];
                             VDict [("name", VStr "B"); ("price", VInt 2)]])]).
  reflexivity.
Defined.

(** X3. When the library reads the paragraphs before the data, the story
    of the PDF is these fixed blocks and one more flowable.  For tabular
    data it is the table of [_dict_to_table_data], which has a data row
    (the guard [if table_data] never drops it); when the header of that
    table is empty, [Table] raises a [ValueError] instead.  For other
    data it is one paragraph with the markup of [_format_data_for_pdf],
    or the exception of the library on that markup.  When the library
    refuses a paragraph before the data, that of the prompt included,
    there is no story. *)
Theorem pdf_story_one_data_block (lib : library) (e : env) (data : pyobj) (prompt : string) :
  (preamble_accepted lib e prompt ->
   _is_tabular_data data = true ->
   exists header rows,
     rows <> []
     /\ _dict_to_table_data data = Ok (header :: rows)
     /\ (header <> [] ->
         pdf_story lib e data prompt
         = Ok (pdf_preamble e prompt ++ [Table (header :: rows)]))
     /\ (header = [] -> exists msg, pdf_story lib e data prompt = Raise (ValueError msg)))
  /\ (preamble_accepted lib e prompt ->
      _is_tabular_data data = false ->
      pdf_story lib e data prompt
      = match paragraph_error lib (_format_data_for_pdf data 0) with
        | Some ex => Raise ex
        | None =>
            Ok (pdf_preamble e prompt ++ [Paragraph (_format_data_for_pdf data 0) "Normal"])
        end)
  /\ (forall story, pdf_story lib e data prompt = Ok story -> preamble_accepted lib e prompt).
Proof.
  split; [|split].
  - intros Hacc H. destruct data; try discriminate. cbn [_is_tabular_data] in H.
    destruct (any_table_split _ H) as (pre & k & d0 & ds & post & -> & Hpre).
    exists (map fst d0), (map (fun d => map (cell_of d) (map fst d0)) (d0 :: ds)).
    split; [discriminate|]. split; [by apply dict_to_table_first|].
    rewrite pdf_story_first by done. split.
    + intros Hh. by destruct d0.
    + intros Hh. destruct d0; [by eexists|discriminate].
  - intros Hacc H. rewrite pdf_story_accepted by done. rewrite H, andb_false_r.
    unfold paragraph. unbind.
    by destruct (paragraph_error lib (_format_data_for_pdf data 0)).
  - apply pdf_story_returns.
Qed.

Lemma pdf_story_one_data_block_witness :
  (exists header rows,
     rows <> []
     /\ _dict_to_table_data items_example = Ok (header :: rows)
     /\ (header <> [] ->
         pdf_story permissive sample_env items_example "p"
         = Ok (pdf_preamble sample_env "p" ++ [Table (header :: rows)]))
     /\ (header = [] ->
         exists msg, pdf_story permissive sample_env items_example "p" = Raise (ValueError msg)))
  /\ pdf_story permissive sample_env page_example "p"
     = match paragraph_error permissive (_format_data_for_pdf page_example 0) with
       | Some ex => Raise ex
       | None =>
           Ok (pdf_preamble sample_env "p"
               ++ [Paragraph (_format_data_for_pdf page_example 0) "Normal"])
       end.
Proof.
  split.
  - apply (proj1 (pdf_story_one_data_block permissive sample_env items_example "p")).
    + repeat constructor.
    + reflexivity.
  - apply (proj1 (proj2 (pdf_story_one_data_block permissive sample_env page_example "p"))).
    + repeat constructor.
    + reflexivity.
Defined.

(** *** Lines of the text renderer *)

Lemma str_app_assoc (a b c : string) : (a +:+ b) +:+ c = a +:+ (b +:+ c).
Proof.
  induction a as [|x a IH]; [done|].
  change (String x ((a +:+ b) +:+ c) = String x (a +:+ (b +:+ c))). by rewrite IH.
Qed.

Lemma repeat_add (s : string) (n k : nat) :
  PyStr.repeat s (n + k) = PyStr.repeat s n +:+ PyStr.repeat s k.
Proof.
  induction n as [|n IH]; [done|]. cbn [Nat.add PyStr.repeat].
  by rewrite IH, str_app_assoc.
Qed.

Lemma indented_here (indent : nat) (rest : string) :
  indented indent (PyStr.repeat "  " indent +:+ rest).
Proof. right. by exists rest. Qed.

Lemma indented_mono (n k : nat) (line : string) :
  indented (n + k) line -> indented n line.
Proof.
  intros [->|[rest ->]]; [by left|]. right.
  exists (PyStr.repeat "  " k +:+ rest). by rewrite repeat_add, str_app_assoc.
Qed.

(** X4. For a dict whose values are all scalars the text renderer gives
    one line [key: value] per key, in the order of the keys, with the
    key as it is. *)
Theorem text_flat_dict (d : dict) (indent : nat) :
  Forall (fun kv => is_scalar kv.2 = true) d ->
  _format_dict_for_text d indent
  = map (fun kv => PyStr.repeat "  " indent +:+ kv.1 +:+ ": " +:+ py_str kv.2) d.
Proof.
  induction 1 as [|[k v] d Hv _ IH]; [done|].
  rewrite text_lines_cons, IH. cbn [map fst snd] in *.
  destruct v; try discriminate; reflexivity.
Qed.

Lemma text_flat_dict_witness :
  _format_dict_for_text [("title", VStr "Test Page"); ("pages", VInt 3); ("draft", VBool false)] 1
  = ["  title: Test Page"; "  pages: 3"; "  draft: False"].
Proof.
  apply (text_flat_dict [("title", VStr "Test Page"); ("pages", VInt 3); ("draft", VBool false)] 1).
  repeat constructor.
Defined.

(** X5. A list value is written as the uppercased key, then its items
    numbered from 1 ([  1. item]) and a blank line; an item that is no
    dict, a nested list included, is written with [str]. *)
Theorem text_list_numbered (key : string) (items : list pyobj) (indent : nat) :
  Forall (fun item => isinstance_dict item = false) items ->
  _format_dict_for_text [(key, VList items)] indent
  = (PyStr.repeat "  " indent +:+ PyStr.upper key +:+ ":")
    :: imap (fun i item =>
               PyStr.repeat "  " indent +:+ "  " +:+ pretty (S i) +:+ ". " +:+ py_str item)
            items
    ++ [""].
Proof.
  intros Hitems. rewrite text_lines_cons. unfold text_entry.
  change (_format_dict_for_text [] indent) with (@nil string). rewrite app_nil_r.
  f_equal. f_equal.
  change (fun (i : nat) (item : pyobj) =>
            PyStr.repeat "  " indent +:+ "  " +:+ pretty (S i) +:+ ". " +:+ py_str item)
    with (fun (i : nat) (item : pyobj) =>
            PyStr.repeat "  " indent +:+ "  " +:+ pretty (1 + i)%nat +:+ ". " +:+ py_str item).
  set (deeper := (indent + 2)%nat).
  generalize 1%nat. induction Hitems as [|x items Hx _ IH]; intros n; [done|].
  rewrite imap_cons, Nat.add_0_r.
  assert (Htail : imap ((fun (i : nat) (item : pyobj) =>
                           PyStr.repeat "  " indent +:+ "  " +:+ pretty (n + i)%nat
                           +:+ ". " +:+ py_str item) ∘ S) items
                  = imap (fun (i : nat) (item : pyobj) =>
                            PyStr.repeat "  " indent +:+ "  " +:+ pretty (S n + i)%nat
                            +:+ ". " +:+ py_str item) items).
  { apply imap_ext. intros i y _. cbn. by rewrite Nat.add_succ_r. }
  rewrite Htail, <- IH. destruct x; try discriminate; reflexivity.
Qed.

Lemma text_list_numbered_witness :
  _format_dict_for_text [("tags", VList [VStr "a"; VInt 2; VList [VNone]])] 0
  = ["TAGS:"; "  1. a"; "  2. 2"; "  3. [None]"; ""].
Proof.
  apply (text_list_numbered "tags" [VStr "a"; VInt 2; VList [VNone]] 0).
  repeat constructor.
Defined.

(** X6. Every line [_format_dict_for_text] returns at an indentation is
    empty or starts with the two spaces per level of that indentation,
    at every depth of nesting. *)
Theorem text_lines_indented (d : dict) (indent : nat) :
  Forall (indented indent) (_format_dict_for_text d indent).
Proof.
  unfold _format_dict_for_text. revert indent.
  cut ((forall indent, Forall (indented indent) (text_lines (VDict d) indent))
       /\ forall items, VDict d = VList items ->
            Forall (fun x => forall indent, Forall (indented indent) (text_lines x indent)) items).
  { by intros [H _]. }
  generalize (VDict d) as v. clear d.
  induction v as [| | | | |items IH|entries IH] using pyobj_nested_ind;
    try (split; [intros indent; constructor|discriminate]).
  - split; [intros indent; constructor|]. intros items' [= <-].
    eapply Forall_impl; [exact IH|]. by intros x [Hx _].
  - split; [|discriminate]. intros indent.
    change (text_lines (VDict entries) indent) with (_format_dict_for_text entries indent).
    induction IH as [|[k v] entries [Hv Hitems] _ IHentries]; [constructor|].
    rewrite text_lines_cons. apply Forall_app. split; [|exact IHentries].
    cbn [snd] in *. unfold text_entry. destruct v as [| | | | |items|inner];
      try (constructor; [apply indented_here|constructor]).
    + constructor; [apply indented_here|]. apply Forall_app. split; [|by repeat constructor; left].
      specialize (Hitems items eq_refl). clear Hv. set (deeper := (indent + 2)%nat).
      generalize 1%nat.
      induction Hitems as [|x items Hx _ IHitems]; intros n; [constructor|].
      apply Forall_app. split; [|apply IHitems].
      destruct x; try (constructor; [apply indented_here|constructor]).
      constructor; [apply indented_here|].
      eapply Forall_impl; [apply (Hx deeper)|]. intros line. apply indented_mono.
    + constructor; [apply indented_here|]. apply Forall_app. split; [|by repeat constructor; left].
      eapply Forall_impl; [apply (Hv (indent + 1))|]. intros line. apply indented_mono.
Qed.

(** *** Blocks of the Word renderer *)

Lemma word_blocks_cons (key : string) (value : pyobj) (rest : dict) (level : nat) :
  word_blocks (VDict ((key, value) :: rest)) level
  = word_entry key value level ++ word_blocks (VDict rest) level.
Proof. destruct value; reflexivity. Qed.

Lemma word_blocks_nested (v : pyobj) (level : nat) :
  level <> 0%nat -> Forall is_doc_paragraph (word_blocks v level).
Proof.
  revert level.
  cut ((forall level, level <> 0%nat -> Forall is_doc_paragraph (word_blocks v level))
       /\ forall items, v = VList items ->
            Forall (fun x => forall level, level <> 0%nat ->
                                Forall is_doc_paragraph (word_blocks x level)) items).
  { by intros [H _]. }
  induction v as [| | | | |items IH|entries IH] using pyobj_nested_ind;
    try (split; [intros level _; constructor|discriminate]).
  - split; [intros level _; constructor|]. intros items' [= <-].
    eapply Forall_impl; [exact IH|]. by intros x [Hx _].
  - split; [|discriminate]. intros level Hlevel.
    induction IH as [|[k v] entries [Hv Hitems] _ IHentries]; [constructor|].
    rewrite word_blocks_cons. apply Forall_app. split; [|exact IHentries].
    cbn [snd] in *. unfold word_entry. destruct v as [| | | | |items|inner];
      try (by repeat constructor).
    + constructor; [done|]. specialize (Hitems items eq_refl). clear Hv.
      induction Hitems as [|x items Hx _ IHitems]; [constructor|].
      apply Forall_app. split; [|exact IHitems].
      destruct x; try (by repeat constructor). apply Hx. lia.
    + apply Forall_app. split; [|apply Hv; lia].
      destruct (Nat.eqb_spec level 0); [done|by repeat constructor].
Qed.

Lemma word_entry_list_paragraphs (key : string) (items : list pyobj) (level : nat) :
  Forall is_doc_paragraph (word_entry key (VList items) level).
Proof.
  unfold word_entry. constructor; [done|].
  induction items as [|x items IH]; [constructor|].
  apply Forall_app. split; [|exact IH].
  destruct x; try (by repeat constructor). apply word_blocks_nested. lia.
Qed.

(** X7. In the Word document only the top level has headings: below it
    every block is a paragraph, and at the top level the headings are
    those of the keys whose value is a dict, title-cased and of level 2,
    one for each such key. *)
Theorem word_headings_top_level (d : dict) :
  (forall level, level <> 0%nat -> Forall is_doc_paragraph (word_blocks (VDict d) level))
  /\ (forall text level alignment,
        Heading text level alignment ∈ word_blocks (VDict d) 0 ->
        level = 2%nat /\ alignment = None
        /\ exists key inner, (key, VDict inner) ∈ d /\ text = PyStr.title key)
  /\ (forall key inner,
        (key, VDict inner) ∈ d ->
        Heading (PyStr.title key) 2 None ∈ word_blocks (VDict d) 0).
Proof.
  split; [intros level; apply word_blocks_nested|]. split.
  - intros text level alignment.
    induction d as [|[k v] d IH]; [by intros H; apply elem_of_nil in H|].
    rewrite word_blocks_cons. intros Hin. apply elem_of_app in Hin as [Hin|Hin].
    + assert (Hpara : forall bs, Forall is_doc_paragraph bs ->
                        Heading text level alignment ∈ bs -> False).
      { intros bs Hbs Hb. by apply (proj1 (Forall_forall _ _) Hbs) in Hb. }
      destruct v as [| | | | |items|inner];
        try (apply list_elem_of_singleton in Hin; discriminate).
      * exfalso. exact (Hpara _ (word_entry_list_paragraphs k items 0) Hin).
      * unfold word_entry in Hin. cbn [Nat.eqb app] in Hin. apply elem_of_cons in Hin as [[= -> -> ->]|Hin].
        -- split; [done|]. split; [done|]. exists k, inner. split; [left|done].
        -- exfalso. revert Hin. apply Hpara. apply word_blocks_nested. lia.
    + destruct (IH Hin) as (-> & -> & key & inner & Hk & ->).
      split; [done|]. split; [done|]. exists key, inner. split; [by right|done].
  - intros key inner Hin. apply list_elem_of_split in Hin as (pre & post & ->).
    induction pre as [|[k v] pre IH].
    + cbn [app]. rewrite word_blocks_cons. apply elem_of_app. left.
      unfold word_entry. cbn [Nat.eqb app]. left.
    + cbn [app]. rewrite word_blocks_cons. apply elem_of_app. by right.
Qed.

(** *** More on the sheet *)

Lemma excel_entry_list (ws : worksheet) (row : nat) (key : string) (items : list pyobj) :
  items <> [] -> all_dicts items = false ->
  entry_height (VList items) = length items + 2
  /\ exists ws',
       excel_entry ws row key (VList items) = Ok (ws', row + (length items + 2))
       /\ forall r c,
            value_at ws' r c
            = if decide ((r, c) = (row, 1%nat)) then Some (PyStr.title key)
              else if decide (S row <= r < S row + length items /\ c = 1%nat)
              then py_str <$> items !! (r - S row)
              else value_at ws r c.
Proof.
  intros Hne Hall. unfold entry_height, excel_entry.
  destruct items as [|x items]; [done|]. cbn [nonempty_list]. rewrite Hall.
  split; [done|].
  destruct (list_rows_written (x :: items) (section_header ws row (PyStr.title key)) (S row))
    as (ws' & -> & Hw).
  eexists. split; [f_equal; f_equal; lia|].
  intros r c. rewrite Hw, value_at_section_header. clear Hw.
  destruct (decide ((r, c) = (row, 1%nat))) as [Eq|_]; [|done].
  inversion Eq; subst. rewrite decide_False by lia. reflexivity.
Qed.

(** X8. A key of the sheet whose value is a non-empty list with an item
    that is no dict takes a header row with the title-cased key, one row
    per item with [str(item)] in column A (a dict among the items as its
    [repr]), and a blank row; the other columns of these rows are
    blank. *)
Theorem excel_simple_list_rows (e : env) (prompt : string) (pre : dict) (k : string)
    (items : list pyobj) (post : dict) :
  items <> [] -> all_dicts items = false ->
  rows_used (pre ++ [(k, VList items)]) = rows_used pre + (length items + 2)
  /\ exists ws,
       excel_sheet e (VDict (pre ++ (k, VList items) :: post)) prompt = Ok ws
       /\ value_at ws (6 + rows_used pre) 1 = Some (PyStr.title k)
       /\ (forall i item, items !! i = Some item ->
             value_at ws (6 + rows_used pre + 1 + i) 1 = Some (py_str item))
       /\ (forall i c, i <= S (length items) -> c <> 1%nat ->
             value_at ws (6 + rows_used pre + i) c = None)
       /\ value_at ws (6 + rows_used pre + 1 + length items) 1 = None.
Proof.
  intros Hne Hall.
  destruct (excel_entry_list (mkSheet "" ∅ ∅) 0 k items Hne Hall) as [Hh _].
  split. { rewrite rows_used_app, rows_used_cons, Hh. cbn. lia. }
  destruct (excel_sheet_entry e prompt pre k (VList items) post)
    as (ws1 & ws2 & ws & E & E2 & Hblank & Hsame).
  destruct (excel_entry_list ws1 (6 + rows_used pre) k items Hne Hall) as (_ & ws2' & E2' & Hw).
  assert (ws2' = ws2) as -> by congruence. clear E2 E2'.
  rewrite Hh in Hsame. set (row := 6 + rows_used pre) in *.
  assert (Hcell : forall r c, row <= r < row + (length items + 2) ->
                    value_at ws r c
                    = if decide ((r, c) = (row, 1%nat)) then Some (PyStr.title k)
                      else if decide (S row <= r < S row + length items /\ c = 1%nat)
                      then py_str <$> items !! (r - S row)
                      else None).
  { intros r c Hr. rewrite Hsame, Hw by lia. repeat case_decide; try done.
    apply Hblank. lia. }
  clear Hw Hsame Hblank. exists ws. split; [exact E|]. repeat split.
  - rewrite Hcell by lia. by rewrite decide_True.
  - intros i item Hi. pose proof (lookup_lt_Some _ _ _ Hi) as Hlt. rewrite Hcell by lia.
    destruct (decide ((row + 1 + i, 1%nat) = (row, 1%nat))) as [Eq|_]; [inversion Eq; lia|].
    rewrite decide_True by lia. replace (row + 1 + i - S row) with i by lia. by rewrite Hi.
  - intros i c Hi Hc. rewrite Hcell by lia.
    destruct (decide ((row + i, c) = (row, 1%nat))) as [Eq|_]; [inversion Eq; lia|].
    rewrite decide_False by lia. reflexivity.
  - rewrite Hcell by lia.
    destruct (decide ((row + 1 + length items, 1%nat) = (row, 1%nat))) as [Eq|_];
      [inversion Eq; lia|].
    rewrite decide_False by lia. reflexivity.
Qed.

Lemma excel_simple_list_rows_witness :
  exists ws,
    excel_sheet sample_env
      (VDict ([("title", VStr "Shop")]
              ++ ("tags", VList [VStr "a"; VDict [("x", VInt 1)]]) :: [("n", VNone)]))
      "p" = Ok ws
    /\ value_at ws 7 1 = Some "Tags"
    /\ value_at ws 8 1 = Some "a"
    /\ value_at ws 9 1 = Some "{'x': 1}"
    /\ value_at ws 10 1 = None.
Proof.
  destruct (excel_simple_list_rows sample_env "p" [("title", VStr "Shop")] "tags"
              [VStr "a"; VDict [("x", VInt 1)]] [("n", VNone)])
    as (_ & ws & E & Hk & Hitems & _ & Hb); [discriminate|reflexivity|].
  exists ws. split; [exact E|]. split; [exact Hk|].
  split; [exact (Hitems 0%nat (VStr "a") eq_refl)|].
  split; [exact (Hitems 1%nat (VDict [("x", VInt 1)]) eq_refl)|exact Hb].
Defined.

(** X9. A key of the sheet whose value is no non-empty list (a scalar,
    [None], a dict or the empty list) takes one row: the title-cased key
    in column A and [str(value)] in column B, [[]] for the empty
    list. *)
Theorem excel_key_value_row (e : env) (prompt : string) (pre : dict) (k : string)
    (v : pyobj) (post : dict) :
  nonempty_list v = None ->
  rows_used (pre ++ [(k, v)]) = rows_used pre + 1
  /\ py_str (VList []) = "[]"
  /\ exists ws,
       excel_sheet e (VDict (pre ++ (k, v) :: post)) prompt = Ok ws
       /\ value_at ws (6 + rows_used pre) 1 = Some (PyStr.title k)
       /\ value_at ws (6 + rows_used pre) 2 = Some (py_str v)
       /\ forall c, 2 < c -> value_at ws (6 + rows_used pre) c = None.
Proof.
  intros Hn.
  assert (Hh : entry_height v = 1%nat) by (unfold entry_height; by rewrite Hn).
  split. { rewrite rows_used_app, rows_used_cons, Hh. cbn. lia. }
  split; [reflexivity|].
  destruct (excel_sheet_entry e prompt pre k v post)
    as (ws1 & ws2 & ws & E & E2 & Hblank & Hsame).
  unfold excel_entry in E2. rewrite Hn in E2. injection E2 as <- _.
  rewrite Hh in Hsame. exists ws. split; [exact E|].
  assert (Hrow : forall c, value_at ws (6 + rows_used pre) c
                           = if decide (c = 2%nat) then Some (py_str v)
                             else if decide (c = 1%nat) then Some (PyStr.title k)
                             else None).
  { intros c. rewrite Hsame by lia. rewrite !value_at_set_value.
    repeat case_decide; simplify_eq; try done. apply Hblank. lia. }
  repeat split.
  - by rewrite Hrow.
  - by rewrite Hrow.
  - intros c Hc. rewrite Hrow. rewrite !decide_False by lia. reflexivity.
Qed.

Lemma excel_key_value_row_witness :
  exists ws,
    excel_sheet sample_env (VDict ([] ++ ("found items", VList []) :: [])) "p" = Ok ws
    /\ value_at ws (6 + rows_used []) 1 = Some "Found Items"
    /\ value_at ws (6 + rows_used []) 2 = Some "[]".
Proof.
  destruct (excel_key_value_row sample_env "p" [] "found items" (VList []) [])
    as (_ & _ & ws & E & HA & HB & _); [reflexivity|].
  exists ws. split; [exact E|]. split; [exact HA|exact HB].
Defined.

Lemma excel_preamble_cells (e : env) (prompt : string) (r c : nat) :
  value_at (excel_preamble e prompt) r c
  = if decide ((r, c) = (4%nat, 2%nat)) then Some prompt
    else if decide ((r, c) = (4%nat, 1%nat)) then Some "Prompt:"
    else if decide ((r, c) = (3%nat, 2%nat)) then Some (now_readable e)
    else if decide ((r, c) = (3%nat, 1%nat)) then Some "Generated:"
    else if decide ((r, c) = (1%nat, 1%nat)) then Some "Web Scraping Results"
    else None.
Proof.
  unfold excel_preamble.
  by rewrite !value_at_set_value, value_at_set_font, value_at_set_value, value_at_blank.
Qed.

(** X10. Whatever the data, the sheet keeps its fixed cells: the title in
    A1, [Generated:] and the time in A3 and B3, [Prompt:] and the prompt
    in A4 and B4, and nothing else above row 6; the data never
    overwrites them. *)
Theorem excel_fixed_cells_kept (e : env) (data : pyobj) (prompt : string) :
  exists ws,
    excel_sheet e data prompt = Ok ws
    /\ value_at ws 1 1 = Some "Web Scraping Results"
    /\ value_at ws 3 1 = Some "Generated:" /\ value_at ws 3 2 = Some (now_readable e)
    /\ value_at ws 4 1 = Some "Prompt:" /\ value_at ws 4 2 = Some prompt
    /\ forall r c,
         r < 6 -> (r, c) ∉ [(1, 1); (3, 1); (3, 2); (4, 1); (4, 2)]%nat ->
         value_at ws r c = None.
Proof.
  unfold excel_sheet. destruct (excel_cells_total e data prompt) as (ws & -> & H).
  exists (auto_adjust ws). split; [done|].
  assert (Hc : forall r c, r < 6 -> value_at (auto_adjust ws) r c
                                    = value_at (excel_preamble e prompt) r c).
  { intros r c Hr. by rewrite value_at_auto_adjust, H. }
  repeat split; try (rewrite Hc by lia; reflexivity).
  intros r c Hr Hnot. rewrite Hc, excel_preamble_cells by done.
  repeat (case_decide; [exfalso; apply Hnot; subst; set_solver|]). reflexivity.
Qed.

(** X11. On a dict [_add_dict_to_excel] never raises: it returns the row
    after the last one it used, [start_row] plus the rows of the keys (at
    least one per key), and writes no cell outside the rows from
    [start_row] to that row; on data that is no dict it raises
    [AttributeError]. *)
Theorem add_dict_to_excel_cursor (ws : worksheet) (data : pyobj) (start_row : nat) :
  (forall entries,
     data = VDict entries ->
     length entries <= rows_used entries
     /\ exists ws',
          _add_dict_to_excel ws data start_row = Ok (ws', start_row + rows_used entries)
          /\ forall r c, r < start_row \/ start_row + rows_used entries <= r ->
                         value_at ws' r c = value_at ws r c)
  /\ (isinstance_dict data = false ->
      exists msg, _add_dict_to_excel ws data start_row = Raise (AttributeError msg)).
Proof.
  split.
  - intros entries ->. split.
    + induction entries as [|[k v] entries IH]; [done|]. rewrite rows_used_cons. cbn [length].
      assert (1 <= entry_height v); [|lia]. unfold entry_height.
      destruct (nonempty_list v); [destruct (all_dicts l)|]; lia.
    + unfold _add_dict_to_excel. cbn [py_items]. unbind.
      destruct (excel_entries_frame entries ws start_row) as (ws' & E & H). by exists ws'.
  - destruct data; try discriminate; intros _; by eexists.
Qed.

Lemma add_dict_to_excel_cursor_witness :
  exists msg,
    _add_dict_to_excel (excel_preamble sample_env "p") (VList [VInt 1]) 6
    = Raise (AttributeError msg).
Proof.
  apply (proj2 (add_dict_to_excel_cursor (excel_preamble sample_env "p") (VList [VInt 1]) 6)).
  reflexivity.
Defined.

(** X12. Every column of the saved sheet has a width, between 6 and 50:
    row 2 is never written, its cells have the value [None], and the
    four characters of [str(None)] count in every column. *)
Theorem column_width_bounds (e : env) (data : pyobj) (prompt : string) :
  exists ws,
    excel_sheet e data prompt = Ok ws
    /\ (forall c, cell_text ws 2 c = "None")
    /\ forall c, 1 <= c <= max_column ws ->
                 exists w, column_width ws !! c = Some w /\ 6 <= w <= 50.
Proof.
  unfold excel_sheet. destruct (excel_cells_total e data prompt) as (ws & -> & Hpre).
  exists (auto_adjust ws). split; [done|].
  assert (Hrow2 : forall c, cell_text ws 2 c = "None").
  { intros c. unfold cell_text. rewrite Hpre, excel_preamble_cells by lia.
    repeat (case_decide; [simplify_eq|]). reflexivity. }
  split. { intros c. unfold cell_text. rewrite value_at_auto_adjust. apply Hrow2. }
  assert (Hmc : max_column (auto_adjust ws) = max_column ws)
    by (unfold max_column, auto_adjust; by rewrite adjust_columns_cells).
  rewrite Hmc. intros c Hc. eexists. split.
  { unfold auto_adjust. rewrite adjust_columns_width, decide_True; [done|].
    apply elem_of_seq. lia. }
  assert (Hrows : 4 <= max_row ws).
  { apply (max_row_ge ws 4 1 "Prompt:"). by rewrite Hpre, excel_preamble_cells by lia. }
  destruct (longest_spec ws c (seq 1 (max_row ws)) 0) as (_ & Hall & _).
  specialize (Hall 2%nat). rewrite Hrow2 in Hall. cbn in Hall.
  assert (4 <= longest ws c (seq 1 (max_row ws)) 0). { apply Hall. apply elem_of_seq. lia. }
  lia.
Qed.

Lemma column_width_bounds_witness :
  exists ws,
    excel_sheet sample_env (VDict [("a", VStr "b")]) "p" = Ok ws
    /\ exists w, column_width ws !! 2%nat = Some w /\ 6 <= w <= 50.
Proof.
  destruct (column_width_bounds sample_env (VDict [("a", VStr "b")]) "p") as (ws & E & _ & H).
  exists ws. split; [exact E|]. apply H.
  vm_compute in E. injection E as <-. vm_compute. lia.
Defined.

(** *** Data that is no dict, and the empty dict *)

(** X13. For data that is no dict every renderer falls back to the text
    of the data: the text file gets the line [str(data)] after the
    banner, the Word document one paragraph with it after its fixed
    blocks, the sheet the header [Extracted Data] in A6 and [str(data)]
    in A7, and the PDF, when the library reads the paragraphs before it,
    the paragraph of [_format_data_for_pdf], which is [str(data)] for a
    scalar, or the exception of the library on that text. *)
Theorem non_dict_data_fallback (lib : library) (e : env) (data : pyobj) (prompt : string)
    (st : state) :
  isinstance_dict data = false ->
  text_content e data prompt = text_content e (VDict []) prompt ++ [py_str data]
  /\ word_body e data prompt
     = word_body e (VDict []) prompt ++ [DocParagraph (py_str data) None]
  /\ (docx_error lib (word_body e data prompt) = None ->
      generate_output lib e data "word" prompt st
      = (Ok (output_name e ".docx", filepath_of (output_name e ".docx")),
         saved e st (output_name e ".docx") (WordFile (word_body e data prompt))
               ("Generated Word document: " +:+ output_name e ".docx")))
  /\ (preamble_accepted lib e prompt ->
      pdf_story lib e data prompt
      = match paragraph_error lib (_format_data_for_pdf data 0) with
        | Some ex => Raise ex
        | None =>
            Ok (pdf_preamble e prompt ++ [Paragraph (_format_data_for_pdf data 0) "Normal"])
        end)
  /\ (is_scalar data = true -> _format_data_for_pdf data 0 = py_str data)
  /\ exists ws,
       excel_sheet e data prompt = Ok ws
       /\ value_at ws 6 1 = Some "Extracted Data"
       /\ value_at ws 7 1 = Some (py_str data)
       /\ forall r c, 6 <= r -> (r, c) <> (6, 1)%nat -> (r, c) <> (7, 1)%nat ->
                      value_at ws r c = None.
Proof.
  intros Hd. split; [|split; [|split; [|split; [|split]]]].
  - destruct data; try discriminate; reflexivity.
  - destruct data; try discriminate; reflexivity.
  - intros Hlib. rewrite generate_output_rendered. unfold rendered.
    cbn [String.eqb Ascii.eqb Bool.eqb]. unbind. rewrite Hlib. reflexivity.
  - intros Hacc. rewrite pdf_story_accepted by done. rewrite Hd. cbn [andb].
    unfold paragraph. unbind.
    by destruct (paragraph_error lib (_format_data_for_pdf data 0)).
  - destruct data; try discriminate; reflexivity.
  - unfold excel_sheet, excel_cells. rewrite Hd.
    exists (auto_adjust
              (set_value (section_header (excel_preamble e prompt) 6 "Extracted Data")
                         7 1 (py_str data))).
    split; [reflexivity|].
    assert (Hc : forall r c, 6 <= r ->
              value_at (auto_adjust
                          (set_value (section_header (excel_preamble e prompt) 6 "Extracted Data")
                                     7 1 (py_str data))) r c
              = if decide ((r, c) = (7, 1)%nat) then Some (py_str data)
                else if decide ((r, c) = (6, 1)%nat) then Some "Extracted Data"
                else None).
    { intros r c Hr.
      rewrite value_at_auto_adjust, value_at_set_value, value_at_section_header.
      repeat case_decide; try done. apply excel_preamble_rows. lia. }
    split; [|split].
    + by rewrite Hc by lia.
    + by rewrite Hc by lia.
    + intros r c Hr H6 H7. rewrite Hc by lia. by rewrite !decide_False.
Qed.

Lemma non_dict_data_fallback_witness :
  exists ws,
    excel_sheet sample_env (VStr "no data found") "p" = Ok ws
    /\ value_at ws 6 1 = Some "Extracted Data"
    /\ value_at ws 7 1 = Some "no data found"
    /\ forall r c, 6 <= r -> (r, c) <> (6, 1)%nat -> (r, c) <> (7, 1)%nat ->
                   value_at ws r c = None.
Proof.
  apply (non_dict_data_fallback permissive sample_env (VStr "no data found") "p"
           (mkState ∅ [])).
  reflexivity.
Defined.

(** X14. For the empty dict the documents hold their fixed blocks only:
    the ten lines of the banner, the five blocks of the Word document,
    the cells of the head of the sheet and none from row 5 on; the PDF,
    when the library reads its paragraphs, gets one more paragraph,
    which is empty. *)
Theorem empty_dict_documents (lib : library) (e : env) (prompt : string) :
  text_content e (VDict []) prompt
  = [PyStr.repeat "=" 50; "WEB SCRAPING RESULTS"; PyStr.repeat "=" 50; "";
     "Generated: " +:+ now_readable e; "Prompt: " +:+ prompt; "";
     "EXTRACTED DATA:"; PyStr.repeat "-" 20; ""]
  /\ word_body e (VDict []) prompt
     = [Heading "Web Scraping Results" 0 (Some 1%nat);
        Heading "Scraping Details" 1 None;
        DocParagraph ("Generated: " +:+ now_readable e) None;
        DocParagraph ("Prompt: " +:+ prompt) None;
        Heading "Extracted Data" 1 None]
  /\ (preamble_accepted lib e prompt ->
      paragraph_error lib "" = None ->
      pdf_story lib e (VDict []) prompt
      = Ok (pdf_preamble e prompt ++ [Paragraph "" "Normal"]))
  /\ exists ws,
       excel_sheet e (VDict []) prompt = Ok ws
       /\ (forall r c, value_at ws r c = value_at (excel_preamble e prompt) r c)
       /\ forall r c, 5 <= r -> value_at ws r c = None.
Proof.
  split; [reflexivity|]. split; [reflexivity|]. split.
  - intros Hacc Hempty. rewrite pdf_story_accepted by done.
    cbn [isinstance_dict _is_tabular_data any_table andb _format_data_for_pdf map].
    change (PyStr.join "" []) with "".
    by rewrite (paragraph_accepted _ _ _ Hempty).
  - exists (auto_adjust (excel_preamble e prompt)). split; [reflexivity|]. split.
    + intros r c. apply value_at_auto_adjust.
    + intros r c Hr. rewrite value_at_auto_adjust. by apply excel_preamble_rows.
Qed.

Lemma empty_dict_documents_witness :
  pdf_story permissive sample_env (VDict []) "p"
  = Ok (pdf_preamble sample_env "p" ++ [Paragraph "" "Normal"]).
Proof.
  apply (proj1 (proj2 (proj2 (empty_dict_documents permissive sample_env "p")))).
  - repeat constructor.
  - reflexivity.
Defined.

(** *** Files: rendering, download and sweep together *)

Lemma len_app (a b : string) : PyStr.len (a +:+ b) = PyStr.len a + PyStr.len b.
Proof.
  unfold PyStr.len. induction a as [|x a IH]; [done|].
  change (S (String.length (a +:+ b)) = S (String.length a) + String.length b). by rewrite IH.
Qed.

Lemma rfind_dot_app (a b : string) :
  PyStr.rfind_dot (a +:+ b)
  = match PyStr.rfind_dot b with
    | Some i => Some (PyStr.len a + i)
    | None => PyStr.rfind_dot a
    end.
Proof.
  induction a as [|x a IH]; [change ("" +:+ b) with b; by destruct (PyStr.rfind_dot b)|].
  change (PyStr.rfind_dot (String x (a +:+ b))
          = match PyStr.rfind_dot b with
            | Some i => Some (S (PyStr.len a) + i)
            | None => PyStr.rfind_dot (String x a)
            end).
  cbn [PyStr.rfind_dot]. rewrite IH. by destruct (PyStr.rfind_dot b).
Qed.

Lemma drop_app (a b : string) : PyStr.drop (PyStr.len a) (a +:+ b) = b.
Proof. induction a as [|x a IH]; [reflexivity|exact IH]. Qed.

(** The suffix of a name that ends with an extension of the table. *)
Lemma suffix_app_extension (stem ext : string) :
  stem <> "" -> ext ∈ known_extensions -> suffix (stem +:+ ext) = ext.
Proof.
  intros Hstem Hext. unfold suffix. rewrite rfind_dot_app, len_app.
  assert (Hdot : PyStr.rfind_dot ext = Some 0%nat /\ 2 <= PyStr.len ext).
  { unfold known_extensions in Hext.
    repeat (apply elem_of_cons in Hext as [->|Hext]; [split; [reflexivity|cbn; lia]|]).
    by apply elem_of_nil in Hext. }
  destruct Hdot as [-> Hlen]. rewrite Nat.add_0_r.
  assert (0 < PyStr.len stem) by (destruct stem; [done|cbn; lia]).
  destruct (Nat.ltb_spec 0 (PyStr.len stem)); [|lia].
  destruct (Nat.ltb_spec (PyStr.len stem) (PyStr.len stem + PyStr.len ext - 1)); [|lia].
  cbn [andb]. apply drop_app.
Qed.

Lemma output_name_media_type (e : env) (format_type : string) :
  supported format_type ->
  (extension_of format_type, media_type_of (output_name e (extension_of format_type)))
  ∈ media_type_map.
Proof.
  intros Hs.
  assert (Hext : extension_of format_type ∈ known_extensions)
    by (destruct Hs as [-> | [-> | [-> | ->]]]; cbn;
        repeat (first [apply list_elem_of_here|apply list_elem_of_further])).
  unfold media_type_of, output_name.
  rewrite <- !str_app_assoc.
  rewrite suffix_app_extension; [|by destruct (now_compact e)|done].
  destruct Hs as [-> | [-> | [-> | ->]]]; cbn;
    repeat (first [apply list_elem_of_here|apply list_elem_of_further]).
Qed.

(** The response for the name of an entry of the directory. *)
Lemma download_entry (elsewhere : string -> path) (filename : string) (st : state) :
  is_Some (output_dir st !! filename) ->
  download_file elsewhere filename st
  = (Ok (mkResponse (filepath_of filename) filename (media_type_of filename)),
     mkState (output_dir st)
             (log st ++ [LogInfo ("Serving file for download: " +:+ filename)])).
Proof.
  intros [f Hf].
  unfold download_file, try_except, mbind, M_bind, bindM, joinpath, lift.
  by rewrite Hf.
Qed.

(** X15. When [generate_output] returns, the format is one of the four
    and the file it has written is served back by [download_file] under
    the returned name and path, with the media type the table gives for
    the extension of the format, whatever the time stamp and the
    identifier in the name.  When it raises, whatever the exception, the
    directory is as before and the error is logged. *)
Theorem generated_file_downloads (lib : library) (elsewhere : string -> path) (e : env)
    (data : pyobj) (format_type prompt : string) (st : state) :
  (forall name filepath st1,
     generate_output lib e data format_type prompt st = (Ok (name, filepath), st1) ->
     supported format_type
     /\ name = output_name e (extension_of format_type)
     /\ filepath = filepath_of name
     /\ is_Some (output_dir st1 !! name)
     /\ exists media_type,
          (extension_of format_type, media_type) ∈ media_type_map
          /\ download_file elsewhere name st1
             = (Ok (mkResponse filepath name media_type),
                mkState (output_dir st1)
                        (log st1 ++ [LogInfo ("Serving file for download: " +:+ name)])))
  /\ (forall ex st1,
        generate_output lib e data format_type prompt st = (Raise ex, st1) ->
        st1 = mkState (output_dir st)
                      (log st ++ [LogError ("Error generating " +:+ format_type
                                            +:+ " output: " +:+ exn_str ex)])).
Proof.
  split.
  - intros name filepath st1 E.
    destruct (generate_output_returns _ _ _ _ _ _ _ _ _ E) as (doc & Hr & -> & -> & ->).
    pose proof (rendered_supported _ _ _ _ _ _ Hr) as Hs.
    assert (Hin : is_Some (output_dir
                             (saved e st (output_name e (extension_of format_type)) doc
                                (generated_message format_type
                                   (output_name e (extension_of format_type))))
                           !! output_name e (extension_of format_type))).
    { unfold saved. cbn [output_dir]. rewrite lookup_insert_eq. by eexists. }
    split; [done|]. split; [done|]. split; [done|]. split; [done|].
    eexists. split; [by apply output_name_media_type|]. by apply download_entry.
  - intros ex st1. rewrite generate_output_rendered.
    destruct (rendered lib e data format_type prompt); [discriminate|].
    by intros [= <- <-].
Qed.

Lemma generated_file_downloads_witness :
  supported "pdf"
  /\ "scrape_result_20240101_120000_abcd1234.pdf" = output_name sample_env (extension_of "pdf")
  /\ "outputs/scrape_result_20240101_120000_abcd1234.pdf"
     = filepath_of "scrape_result_20240101_120000_abcd1234.pdf"
  /\ is_Some (output_dir
                (generate_output permissive sample_env items_example "pdf" "list the items"
                   (mkState sample_dir [])).2
              !! "scrape_result_20240101_120000_abcd1234.pdf")
  /\ exists media_type,
       (extension_of "pdf", media_type) ∈ media_type_map
       /\ download_file nowhere "scrape_result_20240101_120000_abcd1234.pdf"
            (generate_output permissive sample_env items_example "pdf" "list the items"
               (mkState sample_dir [])).2
          = (Ok (mkResponse "outputs/scrape_result_20240101_120000_abcd1234.pdf"
                   "scrape_result_20240101_120000_abcd1234.pdf" media_type),
             mkState
               (output_dir
                  (generate_output permissive sample_env items_example "pdf" "list the items"
                     (mkState sample_dir [])).2)
               (log (generate_output permissive sample_env items_example "pdf"
                       "list the items" (mkState sample_dir [])).2
                ++ [LogInfo ("Serving file for download: "
                             +:+ "scrape_result_20240101_120000_abcd1234.pdf")])).
Proof.
  apply (proj1 (generated_file_downloads permissive nowhere sample_env items_example "pdf"
                  "list the items" (mkState sample_dir []))).
  reflexivity.
Defined.

Lemma cleanup_keeps (e : env) (days : Z) (st : state) (name : string) (f : file) :
  output_dir st !! name = Some f ->
  expired_file (time_time e) days f = false ->
  output_dir (cleanup_old_files e days st).2 !! name = Some f.
Proof.
  intros Hf Hnot. rewrite cleanup_output_dir.
  destruct (sweep_only_removes (time_time e) days (map_to_list (output_dir st)) st name)
    as [H|(_ & f' & Hin & Hf')]; [by rewrite H|].
  apply elem_of_map_to_list in Hin. congruence.
Qed.

(** X16. A file [generate_output] has written less than the retention
    window before the sweep survives it, also when the sweep fails on
    another file, and is still served by [download_file]. *)
Theorem generated_file_survives_sweep (lib : library) (elsewhere : string -> path)
    (e e' : env) (days : Z) (data : pyobj) (format_type prompt : string) (st st1 : state)
    (name filepath : string) :
  generate_output lib e data format_type prompt st = (Ok (name, filepath), st1) ->
  (time_time e' - time_time e <= inject_Z (days * 86400))%Q ->
  output_dir (cleanup_old_files e' days st1).2 !! name = output_dir st1 !! name
  /\ is_Some (output_dir st1 !! name)
  /\ exists resp,
       (download_file elsewhere name (cleanup_old_files e' days st1).2).1 = Ok resp
       /\ resp_filename resp = name
       /\ resp_path resp = filepath.
Proof.
  intros E Hage.
  destruct (generate_output_returns _ _ _ _ _ _ _ _ _ E) as (doc & Hr & Hname & -> & ->).
  set (f := mkFile true (Ok (time_time e)) None (Some doc)).
  set (st1 := saved e st name doc (generated_message format_type name)).
  assert (Hf : output_dir st1 !! name = Some f)
    by (unfold st1, saved; cbn [output_dir]; apply lookup_insert_eq).
  assert (Hkept : output_dir (cleanup_old_files e' days st1).2 !! name = Some f).
  { apply cleanup_keeps; [done|]. unfold expired_file, f. cbn [f_is_file f_mtime andb].
    by apply expired_false. }
  split; [by rewrite Hkept, Hf|]. split; [by rewrite Hf|].
  rewrite download_entry by (by rewrite Hkept). by eexists.
Qed.

Lemma generated_file_survives_sweep_witness :
  output_dir
    (cleanup_old_files sample_env 7
       (generate_output permissive sample_env page_example "text" "Extract the title"
          (mkState locked_dir [])).2).2
  !! "scrape_result_20240101_120000_abcd1234.txt"
  = output_dir
      (generate_output permissive sample_env page_example "text" "Extract the title"
         (mkState locked_dir [])).2
    !! "scrape_result_20240101_120000_abcd1234.txt"
  /\ is_Some (output_dir
                (generate_output permissive sample_env page_example "text" "Extract the title"
                   (mkState locked_dir [])).2
              !! "scrape_result_20240101_120000_abcd1234.txt")
  /\ exists resp,
       (download_file nowhere "scrape_result_20240101_120000_abcd1234.txt"
          (cleanup_old_files sample_env 7
             (generate_output permissive sample_env page_example "text" "Extract the title"
                (mkState locked_dir [])).2).2).1 = Ok resp
       /\ resp_filename resp = "scrape_result_20240101_120000_abcd1234.txt"
       /\ resp_path resp = "outputs/scrape_result_20240101_120000_abcd1234.txt".
Proof.
  apply (generated_file_survives_sweep permissive nowhere sample_env sample_env 7
           page_example "text" "Extract the title" (mkState locked_dir [])).
  - reflexivity.
  - vm_compute. discriminate.
Defined.

(** X17. For a text that is no entry of the directory [download_file]
    does what the path it leads to says: when nothing exists there it
    answers 404, with a warning in the log and the directory as it was;
    when [exists()] raises it answers 500 with the text of the error.  A
    file the sweep has removed is no entry any more. *)
Theorem download_missing_file (elsewhere : string -> path) (e : env) (days : Z)
    (filename : string) (st : state) :
  (output_dir st !! filename = None ->
   path_exists (elsewhere filename) = Ok false ->
   download_file elsewhere filename st
   = (Raise (HTTPException 404 "File not found"),
      mkState (output_dir st)
              (log st ++ [LogWarning ("Requested file not found: " +:+ filename)])))
  /\ (forall msg,
        output_dir st !! filename = None ->
        path_exists (elsewhere filename) = Raise (OSError msg) ->
        download_file elsewhere filename st
        = (Raise (HTTPException 500 ("Download failed: " +:+ msg)),
           mkState (output_dir st) (log st ++ [LogError ("Download failed: " +:+ msg)])))
  /\ (forall f,
        no_os_error (output_dir st) ->
        output_dir st !! filename = Some f -> old_file e days f ->
        output_dir (cleanup_old_files e days st).2 !! filename = None
        /\ (path_exists (elsewhere filename) = Ok false ->
            (download_file elsewhere filename (cleanup_old_files e days st).2).1
            = Raise (HTTPException 404 "File not found"))).
Proof.
  assert (H404 : forall st0,
            output_dir st0 !! filename = None ->
            path_exists (elsewhere filename) = Ok false ->
            download_file elsewhere filename st0
            = (Raise (HTTPException 404 "File not found"),
               mkState (output_dir st0)
                       (log st0 ++ [LogWarning ("Requested file not found: " +:+ filename)]))).
  { intros st0 Hnone Hno.
    unfold download_file, try_except, mbind, M_bind, bindM, joinpath, lift.
    by rewrite Hnone, Hno. }
  split; [apply H404|]. split.
  - intros msg Hnone Hraise.
    unfold download_file, try_except, mbind, M_bind, bindM, joinpath, lift.
    by rewrite Hnone, Hraise.
  - intros f Hok Hf Hold.
    assert (Hgone : output_dir (cleanup_old_files e days st).2 !! filename = None).
    { rewrite cleanup_output_dir.
      destruct (sweep_removes_expired (time_time e) days (map_to_list (output_dir st)) st)
        as [_ Hgone].
      { intros name f0 Hin. apply elem_of_map_to_list in Hin. by apply (Hok name). }
      apply (Hgone filename f); [by apply elem_of_map_to_list|by apply old_file_expired]. }
    split; [exact Hgone|]. intros Hno. by rewrite H404.
Qed.

Lemma download_missing_file_witness :
  download_file nowhere "nothing.pdf" (mkState sample_dir [])
  = (Raise (HTTPException 404 "File not found"),
     mkState sample_dir [LogWarning "Requested file not found: nothing.pdf"]).
Proof.
  apply (proj1 (download_missing_file nowhere sample_env 7 "nothing.pdf"
                  (mkState sample_dir []))).
  - vm_compute. reflexivity.
  - reflexivity.
Defined.




(** *** The URL check *)

Lemma str_app_cons (c : ascii) (a b : string) : String c a +:+ b = String c (a +:+ b).
Proof. reflexivity. Qed.

Lemma startswith_iff (p s : string) :
  startswith p s = true <-> exists rest, s = p +:+ rest.
Proof.
  revert s. induction p as [|a p IH]; intros s; cbn [startswith].
  - split; [by exists s|done].
  - destruct s as [|b s].
    + split; [done|]. intros [rest H]. rewrite str_app_cons in H. discriminate.
    + rewrite andb_true_iff, IH. split.
      * intros [Hab [rest ->]]. apply Ascii.eqb_eq in Hab as ->. by exists rest.
      * intros [rest H]. rewrite str_app_cons in H. injection H as -> ->.
        split; [apply Ascii.eqb_refl|by exists rest].
Qed.

Lemma re_match_literal_then (p : string) (q : list re_item) (x : string) :
  re_match (literal p ++ q) x = true <-> exists y, x = p +:+ y /\ re_match q y = true.
Proof.
  revert x. induction p as [|c p IH]; intros x; cbn [literal app].
  - split; [by exists x|]. by intros [y [-> H]].
  - destruct x as [|a x]; cbn [re_match].
    + split; [done|]. intros [y [H _]]. rewrite str_app_cons in H. discriminate.
    + rewrite andb_true_iff, IH. split.
      * intros [Hac [y [-> Hy]]]. apply Ascii.eqb_eq in Hac as ->. by exists y.
      * intros [y [H Hy]]. rewrite str_app_cons in H. injection H as -> ->.
        split; [apply Ascii.eqb_refl|by exists y].
Qed.

Lemma re_match_literal (p x : string) :
  re_match (literal p) x = true <-> exists y, x = p +:+ y.
Proof.
  rewrite <- (app_nil_r (literal p)), re_match_literal_then. split.
  - intros [y [-> _]]. by exists y.
  - intros [y ->]. exists y. split; [done|]. by destruct y.
Qed.

Lemma re_match_digits (y : string) :
  re_match [Digits] y = true <-> exists d b, y = String d b /\ is_digit d = true.
Proof.
  destruct y as [|d b]; cbn [re_match].
  - split; [done|]. by intros (d & b & H & _).
  - rewrite andb_true_iff. split.
    + intros [Hd _]. by exists d, b.
    + intros (d' & b' & [= -> ->] & Hd). split; [done|]. by destruct b'.
Qed.

Lemma re_search_iff (p : list re_item) (s : string) :
  re_search p s = true <-> exists a x, s = a +:+ x /\ re_match p x = true.
Proof.
  induction s as [|c s IH]; cbn [re_search].
  - rewrite orb_false_r. split.
    + intros H. by exists "", "".
    + intros (a & x & H & Hx). destruct a; [|discriminate].
      change ("" +:+ x) with x in H. by subst.
  - rewrite orb_true_iff, IH. split.
    + intros [H|(a & x & -> & Hx)]; [by exists "", (String c s)|by exists (String c a), x].
    + intros (a & x & H & Hx). destruct a as [|c' a].
      * left. change ("" +:+ x) with x in H. by subst.
      * right. rewrite str_app_cons in H. injection H as -> ->. by exists a, x.
Qed.

(** X19. [validate_url] accepts exactly the URLs that start with
    [http://] or [https://] and in which, at no place, path and query
    included, there is [localhost:] followed by a digit, [127.0.0.1] or
    [file://]. *)
Theorem validate_url_iff (url : string) :
  validate_url url = true
  <-> ((exists rest, url = "http://" +:+ rest) \/ (exists rest, url = "https://" +:+ rest))
      /\ ~ (exists a d b, is_digit d = true /\ url = a +:+ "localhost:" +:+ String d b)
      /\ ~ (exists a b, url = a +:+ "127.0.0.1" +:+ b)
      /\ ~ (exists a b, url = a +:+ "file://" +:+ b).
Proof.
  unfold validate_url, invalid_patterns. cbn [existsb]. rewrite orb_false_r.
  rewrite <- !startswith_iff, <- orb_true_iff.
  destruct (startswith "http://" url || startswith "https://" url); cbn [negb];
    [|split; [done|by intros [? _]]].
  assert (H1 : re_search (literal "localhost:" ++ [Digits]) url = true
               <-> exists a d b, is_digit d = true /\ url = a +:+ "localhost:" +:+ String d b).
  { rewrite re_search_iff. split.
    - intros (a & x & -> & Hx). apply re_match_literal_then in Hx as (y & -> & Hy).
      apply re_match_digits in Hy as (d & b & -> & Hd). by exists a, d, b.
    - intros (a & d & b & Hd & ->). exists a, ("localhost:" +:+ String d b).
      split; [done|]. apply re_match_literal_then. exists (String d b).
      split; [done|]. apply re_match_digits. by exists d, b. }
  assert (H2 : forall p, re_search (literal p) url = true <-> exists a b, url = a +:+ p +:+ b).
  { intros p. rewrite re_search_iff. split.
    - intros (a & x & -> & Hx). apply re_match_literal in Hx as (y & ->). by exists a, y.
    - intros (a & b & ->). exists a, (p +:+ b). split; [done|].
      apply re_match_literal. by exists b. }
  rewrite <- H1, <- !H2.
  destruct (re_search (literal "localhost:" ++ [Digits]) url);
    [split; [done|intros (_ & H & _); by destruct H]|].
  destruct (re_search (literal "127.0.0.1") url);
    [split; [done|intros (_ & _ & H & _); by destruct H]|].
  destruct (re_search (literal "file://") url);
    [split; [done|intros (_ & _ & _ & H); by destruct H]|].
  split; [|done]. intros _. repeat split; try done.
Qed.

(** *** The scrape endpoint *)

Section ScrapeProperties.

Variable lib : library.
Variable fetch_content : string -> result (string * string).
Variable process_content : string -> string -> result pyobj.
Variable validation_error : pyobj -> string.

(** X20. For a URL [validate_url] rejects the endpoint raises the HTTP
    error 400 before it calls a service: the directory is as before and
    the log has one more line, the warning. *)
Theorem scrape_invalid_url (e : env) (request : ScrapeRequest) (st : state) :
  validate_url (req_url request) = false ->
  scrape_webpage lib fetch_content process_content validation_error e request st
  = (Raise (HTTPException 400 "Invalid URL. Please provide a valid HTTP/HTTPS URL."),
     mkState (output_dir st)
             (log st ++ [LogWarning ("Invalid URL provided: " +:+ req_url request)])).
Proof.
  intros H. unfold scrape_webpage, try_except. by rewrite H.
Qed.

(** X21. The endpoint raises nothing but HTTP errors: an exception of a
    service or of the renderer that is no HTTP error becomes the error
    500 with [Scraping failed: ] and its text; and when fetching or the
    model fails, or the page has only white space, no file is written. *)
Theorem scrape_errors_are_http (e : env) (request : ScrapeRequest) (st : state) :
  (forall ex st', scrape_webpage lib fetch_content process_content validation_error e request st = (Raise ex, st') ->
                  exists status_code detail, ex = HTTPException status_code detail)
  /\ (forall msg,
        validate_url (req_url request) = true ->
        fetch_content (req_url request) = Raise (OSError msg) ->
        exists st',
          scrape_webpage lib fetch_content process_content validation_error e request st
          = (Raise (HTTPException 500 ("Scraping failed: " +:+ msg)), st')
          /\ output_dir st' = output_dir st)
  /\ (forall raw_html cleaned_content,
        validate_url (req_url request) = true ->
        fetch_content (req_url request) = Ok (raw_html, cleaned_content) ->
        strip cleaned_content = "" ->
        exists st',
          scrape_webpage lib fetch_content process_content validation_error e request st
          = (Raise (HTTPException 400 "No readable content found on the webpage."), st')
          /\ output_dir st' = output_dir st)
  /\ (forall raw_html cleaned_content msg,
        validate_url (req_url request) = true ->
        fetch_content (req_url request) = Ok (raw_html, cleaned_content) ->
        strip cleaned_content <> "" ->
        process_content cleaned_content (req_prompt request) = Raise (ValueError msg) ->
        exists st',
          scrape_webpage lib fetch_content process_content validation_error e request st
          = (Raise (HTTPException 500 ("Scraping failed: " +:+ msg)), st')
          /\ output_dir st' = output_dir st).
Proof.
  split; [|split; [|split]].
  - intros ex st'. unfold scrape_webpage, try_except.
    match goal with
    | |- context [match ?body st with _ => _ end] => destruct (body st) as [[r|ex0] st0]
    end; [discriminate|].
    destruct ex0; cbn; intros [= <- <-]; by eexists _, _.
  - intros msg Hv Hf. unfold scrape_webpage, try_except. rewrite Hv. cbn [negb].
    unfold mbind, M_bind, bindM, lift, logger_info. rewrite Hf.
    eexists. split; reflexivity.
  - intros raw_html cleaned_content Hv Hf Hblank.
    unfold scrape_webpage, try_except. rewrite Hv. cbn [negb].
    unfold mbind, M_bind, bindM, lift, logger_info. rewrite Hf, Hblank.
    eexists. split; reflexivity.
  - intros raw_html cleaned_content msg Hv Hf Hblank Hp.
    unfold scrape_webpage, try_except. rewrite Hv. cbn [negb].
    unfold mbind, M_bind, bindM, lift, logger_info. rewrite Hf.
    destruct (strip cleaned_content) eqn:Hs; [done|]. cbn [is_empty]. rewrite Hp.
    eexists. split; reflexivity.
Qed.

(** X22. A request with an accepted URL, a page with text and a dict
    from the model, for which the renderer of the format gives a
    document, is answered with the data, the file name
    [generate_output] chose and the link [/download/] plus that name;
    the sweep scheduled with the answer leaves the file in place when it
    runs within seven days, and [download_file] then serves it. *)
Theorem scrape_success_downloadable (elsewhere : string -> path) (e e' : env)
    (request : ScrapeRequest) (st : state) (raw_html cleaned_content : string)
    (entries : dict) (doc : document) :
  validate_url (req_url request) = true ->
  fetch_content (req_url request) = Ok (raw_html, cleaned_content) ->
  strip cleaned_content <> "" ->
  process_content cleaned_content (req_prompt request) = Ok (VDict entries) ->
  rendered lib e (VDict entries) (req_output_format request) (req_prompt request) = Ok doc ->
  (time_time e' - time_time e <= inject_Z (7 * 86400))%Q ->
  let name := output_name e (extension_of (req_output_format request)) in
  exists st' resp,
    serve_scrape lib fetch_content process_content validation_error e e' request st
    = (Ok (mkScrapeResponse true "Scraping completed successfully" (Some entries)
             (Some ("/download/" +:+ name)) (Some name)),
       st')
    /\ (exists f, output_dir st' !! name = Some f /\ f_content f = Some doc)
    /\ (download_file elsewhere name st').1 = Ok resp
    /\ resp_filename resp = name.
Proof.
  intros Hv Hf Hblank Hp Hr Hage name.
  unfold serve_scrape, scrape_webpage, try_except. rewrite Hv. cbn [negb].
  unfold mbind, M_bind, bindM, lift, logger_info. rewrite Hf.
  destruct (strip cleaned_content) eqn:Hstrip; [done|]. cbn [is_empty]. rewrite Hp.
  rewrite generate_output_rendered, Hr.
  cbn [make_response ret]. fold name.
  match goal with
  | |- context [cleanup_old_files_default e' ?s] => set (st1 := s)
  end.
  unfold cleanup_old_files_default.
  assert (Hkept : output_dir (cleanup_old_files e' 7 st1).2 !! name
                  = Some (mkFile true (Ok (time_time e)) None (Some doc))).
  { apply cleanup_keeps.
    - unfold st1, saved. cbn [output_dir]. apply lookup_insert_eq.
    - unfold expired_file. cbn [f_is_file f_mtime andb]. by apply expired_false. }
  destruct (cleanup_old_files e' 7 st1) as [r st2] eqn:Hc.
  assert (r = Ok tt) as ->.
  { pose proof (cleanup_returns e' 7 st1) as Hr'. cbn zeta in Hr'. rewrite Hc in Hr'.
    by injection Hr' as -> _. }
  cbn [snd] in Hkept. eexists _, _. split; [reflexivity|].
  split; [by eexists|].
  rewrite download_entry by (by rewrite Hkept). split; reflexivity.
Qed.

(** X23. When the model returns data that is neither a dict nor [None]
    and the renderer of the format gives a document for it, the file is
    written, and then the endpoint fails: the response model refuses the
    data, the error 500 is raised with the text of the validation error,
    and the written file stays in the directory. *)
Theorem scrape_non_dict_data_fails_after_write (e : env) (request : ScrapeRequest)
    (st : state) (raw_html cleaned_content : string) (data : pyobj) (doc : document) :
  validate_url (req_url request) = true ->
  fetch_content (req_url request) = Ok (raw_html, cleaned_content) ->
  strip cleaned_content <> "" ->
  process_content cleaned_content (req_prompt request) = Ok data ->
  isinstance_dict data = false -> data <> VNone ->
  rendered lib e data (req_output_format request) (req_prompt request) = Ok doc ->
  exists st' f,
    scrape_webpage lib fetch_content process_content validation_error e request st
    = (Raise (HTTPException 500 ("Scraping failed: " +:+ validation_error data)), st')
    /\ output_dir st' !! output_name e (extension_of (req_output_format request)) = Some f
    /\ f_content f = Some doc.
Proof.
  intros Hv Hf Hblank Hp Hd Hnone Hr.
  unfold scrape_webpage, try_except. rewrite Hv. cbn [negb].
  unfold mbind, M_bind, bindM, lift, logger_info. rewrite Hf.
  destruct (strip cleaned_content) eqn:Hstrip; [done|]. cbn [is_empty]. rewrite Hp.
  rewrite generate_output_rendered, Hr.
  assert (Hresp : forall url name,
            make_response validation_error true "Scraping completed successfully" data url name
            = Raise (ValueError (validation_error data))).
  { intros url name. destruct data; try done. }
  rewrite Hresp. eexists _, _. split; [reflexivity|].
  unfold saved. cbn [output_dir]. rewrite lookup_insert_eq. split; reflexivity.
Qed.

End ScrapeProperties.

Lemma scrape_invalid_url_witness :
  scrape_webpage permissive sample_fetch sample_process sample_validation_error sample_env
    (mkRequest "http://localhost:8000/admin" "Extract the title" "text") (mkState sample_dir [])
  = (Raise (HTTPException 400 "Invalid URL. Please provide a valid HTTP/HTTPS URL."),
     mkState sample_dir [LogWarning "Invalid URL provided: http://localhost:8000/admin"]).
Proof.
  apply (scrape_invalid_url permissive sample_fetch sample_process sample_validation_error
           sample_env (mkRequest "http://localhost:8000/admin" "Extract the title" "text")
           (mkState sample_dir [])).
  reflexivity.
Defined.

Lemma scrape_errors_are_http_witness :
  exists st',
    scrape_webpage permissive failing_fetch sample_process sample_validation_error sample_env
      sample_request (mkState sample_dir [])
    = (Raise (HTTPException 500
                ("Scraping failed: " +:+ "Failed to fetch content: connection refused")), st')
    /\ output_dir st' = output_dir (mkState sample_dir []).
Proof.
  apply (proj1 (proj2 (scrape_errors_are_http permissive failing_fetch sample_process
                         sample_validation_error sample_env sample_request
                         (mkState sample_dir [])))); reflexivity.
Defined.

Lemma scrape_success_downloadable_witness :
  exists st' resp,
    serve_scrape permissive sample_fetch sample_process sample_validation_error
      sample_env sample_env sample_request (mkState locked_dir [])
    = (Ok (mkScrapeResponse true "Scraping completed successfully"
             (Some [("title", VStr "Test Page"); ("content", VStr "Test content")])
             (Some ("/download/" +:+ output_name sample_env (extension_of "text")))
             (Some (output_name sample_env (extension_of "text")))),
       st')
    /\ (exists f,
          output_dir st' !! output_name sample_env (extension_of "text") = Some f
          /\ f_content f
             = Some (TextFile (PyStr.join newline
                                 (text_content sample_env page_example "Extract the title"))))
    /\ (download_file nowhere (output_name sample_env (extension_of "text")) st').1 = Ok resp
    /\ resp_filename resp = output_name sample_env (extension_of "text").
Proof.
  apply (scrape_success_downloadable permissive sample_fetch sample_process
           sample_validation_error nowhere sample_env sample_env sample_request
           (mkState locked_dir [])
           "<html><body><h1>Test Page</h1></body></html>" "Test Page"
           [("title", VStr "Test Page"); ("content", VStr "Test content")]
           (TextFile (PyStr.join newline
                        (text_content sample_env page_example "Extract the title")))).
  - reflexivity.
  - reflexivity.
  - discriminate.
  - reflexivity.
  - reflexivity.
  - vm_compute. discriminate.
Defined.

Lemma scrape_non_dict_data_fails_after_write_witness :
  exists st' f,
    scrape_webpage permissive sample_fetch list_process sample_validation_error sample_env
      sample_request (mkState sample_dir [])
    = (Raise (HTTPException 500
                ("Scraping failed: " +:+ sample_validation_error (VList [VStr "Test Page"]))),
       st')
    /\ output_dir st' !! output_name sample_env (extension_of "text") = Some f
    /\ f_content f
       = Some (TextFile (PyStr.join newline
                           (text_content sample_env (VList [VStr "Test Page"])
                              "Extract the title"))).
Proof.
  apply (scrape_non_dict_data_fails_after_write permissive sample_fetch list_process
           sample_validation_error sample_env sample_request (mkState sample_dir [])
           "<html><body><h1>Test Page</h1></body></html>" "Test Page"
           (VList [VStr "Test Page"])
           (TextFile (PyStr.join newline
                        (text_content sample_env (VList [VStr "Test Page"])
                           "Extract the title")))).
  - reflexivity.
  - reflexivity.
  - discriminate.
  - reflexivity.
  - reflexivity.
  - discriminate.
  - reflexivity.
Defined.
